(** * coderr-backend: the serializers of [coderr_app/api/serializer.py]

    A shallow embedding of the validation and write logic of the Offer,
    Order and Review serializers, with the database as an explicit store
    that every write threads through, and the properties of the
    specification stated over it. *)

From Stdlib Require Import Ascii.
From stdpp Require Import gmap strings pretty list fin_maps.

Local Open Scope Z_scope.

(** ** Python values, exceptions and results *)

(** A finite float, [mantissa * 2 ^ exponent] with its sign, which is what
    a JSON number with a fraction or an exponent is read as.  (A literal too
    large for a float is read as infinity; that value is not modelled.) *)
Record float := mk_float {
  negative : bool;
  mantissa : N;
  exponent : Z }.

(** [int(f)]: the integer part, rounded towards zero. *)
Definition float_int (f : float) : Z :=
  let m := Z.of_N (mantissa f) in
  let n := if bool_decide (0 ≤ exponent f) then m * 2 ^ exponent f
           else m `div` 2 ^ (- exponent f) in
  if negative f then - n else n.

(** The values of a decoded request body: JSON null, booleans, integers,
    floats and strings; the scalar fields below reject arrays and objects
    whatever they hold, so these carry no contents.  A text is held as the
    bytes of its UTF-8 form.  A [dict] keeps its items in insertion order. *)
Inductive value :=
| VNone
| VBool (b : bool)
| VInt (z : Z)
| VFloat (f : float)
| VStr (s : string)
| VArray
| VObject.

(** The functions of the Python runtime that the fields below call on a
    text or a float.  They are not code of this repository and depend on the
    Unicode tables of the interpreter (white space, decimal digits of every
    script), so the serializers are defined, and their properties proved,
    for whatever these functions are. *)
Class Python := {
  (** [s.strip()] *)
  str_strip : string → string;
  (** [len(s)], the number of characters *)
  str_len : string → nat;
  (** [int(s)], [None] when it raises [ValueError] *)
  str_int : string → option Z;
  (** [str(f)] *)
  float_str : float → string;
  (** [re_decimal.sub('', s)] of [IntegerField], which removes a trailing
      dot, zeros and white space: [3.0] becomes [3] *)
  re_decimal_sub : string → string }.

Abbreviation dict := (list (string * value)).

(** [d.get(k)] *)
Fixpoint dict_get (d : dict) (k : string) : option value :=
  match d with
  | [] => None
  | (k', v) :: d' => if String.eqb k' k then Some v else dict_get d' k
  end.

(** [d.keys()] *)
Definition dict_keys (d : dict) : list string := d.*1.

(** [sep.join(l)] *)
Fixpoint join (sep : string) (l : list string) : string :=
  match l with
  | [] => ""
  | [s] => s
  | s :: l' => s +:+ sep +:+ join sep l'
  end.

(** The error codes of the framework's built-in field checks. *)
Module code.
Inductive t :=
| required | null | invalid | blank | min_value | max_value
| invalid_choice | does_not_exist | incorrect_type
| null_characters_not_allowed | max_string_length.
End code.

(** One entry of a validation error: a built-in check's code or the message
    the serializer raised. *)
Inductive ErrorDetail :=
| Code (c : code.t)
| Message (m : string).

(** The payload of [serializers.ValidationError]: a bare message, or a dict
    from field name to error. *)
Inductive detail :=
| NonField (m : string)
| ByField (errs : list (string * ErrorDetail)).

(** The exceptions the serializers raise or let through. *)
Inductive exn :=
| ValidationError (d : detail)
| DoesNotExist
| MultipleObjectsReturned
| KeyError (k : string).

Inductive result (A : Type) :=
| Ok (a : A)
| Raise (e : exn).
Arguments Ok {A} a.
Arguments Raise {A} e.

(** The error kinds of the specification's taxonomy, and the kind each
    exception class belongs to.  [ValidationError] is the validation kind;
    the ORM's [DoesNotExist] is the not-found kind; nothing in the module
    raises an authorization or a conflict error. *)
Inductive ErrorKind :=
| KValidationError | KAuthorizationError | KNotFoundError | KConflictError
| KUncaught.

Definition kind_of (e : exn) : ErrorKind :=
  match e with
  | ValidationError _ => KValidationError
  | DoesNotExist => KNotFoundError
  | MultipleObjectsReturned | KeyError _ => KUncaught
  end.

(** ** The models, as far as the serializers use them

    [coderr_app/models.py] is not among the sources.  Each model below has
    the fields the serializers of this module read and write, without the
    key (the tables are keyed by it) and without the time stamps. *)

Module Offer.
(** Modelled from the spec: the Offer model, owned by one user, with a
    title, a description and an optional image reference.  [image] is the
    reference as the serializer hands it over, and the created and updated
    time stamps that the specification lists are left out: the serializers
    neither read nor write them, and no statement below speaks of them. *)
Record t := mk {
  user : Z;
  title : string;
  image : option string;
  description : string }.
End Offer.

Module OfferDetail.
(** Modelled from the spec: the OfferDetail model, child of exactly one
    Offer.  [offer] is the foreign key to the owning Offer, which reaches
    its children as [instance.details]. *)
Record t := mk {
  offer : Z;
  title : string;
  revisions : Z;
  delivery_time_in_days : Z;
  price : Z;
  features : list string;
  offer_type : string }.
End OfferDetail.

Module Order.
(** Modelled from the spec: the commercial terms an Order holds.  The
    specification gives the Order "a read-only snapshot of the referenced
    detail's commercial terms (title, revisions, delivery_time_in_days,
    price, features, offer_type) captured at creation time". *)
Record terms := mk_terms {
  title : string;
  revisions : Z;
  delivery_time_in_days : Z;
  price : Z;
  features : list string;
  offer_type : string }.

(** Modelled from the spec: the Order model, which is not among the
    sources.  By the specification the Order "references one OfferDetail
    (by id, resolved at creation)" and the two users, has a status, and
    "holds a copy of terms, not a live pointer": [offer_detail_id] is that
    id, the serializer's write-only input, and [offer_detail] is the copy
    the serializer's [source='offer_detail.<name>'] fields read. *)
Record t := mk {
  customer_user : Z;
  business_user : Z;
  status : string;
  offer_detail_id : Z;
  offer_detail : terms }.

(** Modelled from the spec: [Order.STATUS_CHOICES] lives in the models
    module; the specification lists the four labels. *)
Definition STATUS_CHOICES : list string :=
  ["pending"; "in_progress"; "completed"; "cancelled"]%string.
End Order.

Module Review.
(** Modelled from the spec: the Review model, which references the reviewer
    and the reviewed business user and has a rating and a description. *)
Record t := mk {
  business_user : Z;
  reviewer : Z;
  rating : Z;
  description : string }.
End Review.

Module Profile.
(** Modelled from the spec: the Profile model, of which [validate] reads the
    [type], business or customer. *)
Record t := mk { type : string }.
End Profile.

Module User.
(** Modelled from the spec: one profile per user; [hasattr(user, "profile")]
    is false for a user that has none. *)
Record t := mk { profile : option Profile.t }.
End User.

(** The database: one table per model, keyed by primary key. *)
Record Store := mkStore {
  Offer_objects : gmap Z Offer.t;
  OfferDetail_objects : gmap Z OfferDetail.t;
  Order_objects : gmap Z Order.t;
  Review_objects : gmap Z Review.t;
  User_objects : gmap Z User.t }.

Definition with_offers (f : gmap Z Offer.t → gmap Z Offer.t) (st : Store) : Store :=
  mkStore (f (Offer_objects st)) (OfferDetail_objects st) (Order_objects st)
          (Review_objects st) (User_objects st).
Definition with_details (f : gmap Z OfferDetail.t → gmap Z OfferDetail.t) (st : Store) : Store :=
  mkStore (Offer_objects st) (f (OfferDetail_objects st)) (Order_objects st)
          (Review_objects st) (User_objects st).
Definition with_orders (f : gmap Z Order.t → gmap Z Order.t) (st : Store) : Store :=
  mkStore (Offer_objects st) (OfferDetail_objects st) (f (Order_objects st))
          (Review_objects st) (User_objects st).
Definition with_reviews (f : gmap Z Review.t → gmap Z Review.t) (st : Store) : Store :=
  mkStore (Offer_objects st) (OfferDetail_objects st) (Order_objects st)
          (f (Review_objects st)) (User_objects st).

(** The primary key an [INSERT] assigns: one past the largest key in use. *)
Definition next_pk {A} (tbl : gmap Z A) : Z :=
  1 + map_fold (λ k _ acc, Z.max k acc) 0 tbl.

(** ** Code that reads and writes the store *)

(** A computation runs from a store to a result and the store it leaves
    behind; an exception keeps the writes made before it (there is no
    transaction around the serializer's writes). *)
Definition M (A : Type) : Type := Store → result A * Store.

Definition ret {A} (a : A) : M A := λ st, (Ok a, st).
Definition raise {A} (e : exn) : M A := λ st, (Raise e, st).
Definition bind {A B} (m : M A) (k : A → M B) : M B :=
  λ st, match m st with
        | (Ok a, st') => k a st'
        | (Raise e, st') => (Raise e, st')
        end.
Definition lift {A} (r : result A) : M A := λ st, (r, st).
Definition read {A} (f : Store → result A) : M A := λ st, (f st, st).
Definition write (f : Store → Store) : M () := λ st, (Ok (), f st).

Notation "x <- m ;; k" := (bind m (λ x, k))
  (at level 100, m at next level, right associativity, only parsing).
Notation "m ;;; k" := (bind m (λ _, k))
  (at level 100, right associativity, only parsing).

(** [for x in l: body(x)] *)
Fixpoint for_each {A} (l : list A) (body : A → M ()) : M () :=
  match l with
  | [] => ret ()
  | x :: l' => body x ;;; for_each l' body
  end.

(** [except cls: raise e'] around a computation, for the one class the
    serializer catches. *)
Definition except_DoesNotExist {A} (m : M A) (e' : exn) : M A :=
  λ st, match m st with
        | (Raise DoesNotExist, st') => (Raise e', st')
        | r => r
        end.

(** ** OfferDetailItemNestedSerializer *)

Module OfferDetailItemNestedSerializer.
(** One item of a nested detail's validated data.  The dict holds only the
    serializer's writable fields ([Meta.fields] without the read-only
    [id]), each with a value of the field's type; on a partial update any
    of them may be absent. *)
Inductive item :=
| Title (v : string)
| Revisions (v : Z)
| DeliveryTimeInDays (v : Z)
| Price (v : Z)
| Features (v : list string)
| OfferType (v : string).

Definition key (i : item) : string :=
  match i with
  | Title _ => "title"
  | Revisions _ => "revisions"
  | DeliveryTimeInDays _ => "delivery_time_in_days"
  | Price _ => "price"
  | Features _ => "features"
  | OfferType _ => "offer_type"
  end.

(** [d.get('offer_type')] *)
Fixpoint get_offer_type (d : list item) : option string :=
  match d with
  | [] => None
  | OfferType v :: _ => Some v
  | _ :: d' => get_offer_type d'
  end.

(** [d['offer_type']] *)
Definition getitem_offer_type (d : list item) : result string :=
  match get_offer_type d with
  | Some v => Ok v
  | None => Raise (KeyError "offer_type")
  end.

(** [setattr(obj, attr, value)] on an OfferDetail instance. *)
Definition setattr (obj : OfferDetail.t) (i : item) : OfferDetail.t :=
  let '(OfferDetail.mk o t r d p f ty) := obj in
  match i with
  | Title v => OfferDetail.mk o v r d p f ty
  | Revisions v => OfferDetail.mk o t v d p f ty
  | DeliveryTimeInDays v => OfferDetail.mk o t r v p f ty
  | Price v => OfferDetail.mk o t r d v f ty
  | Features v => OfferDetail.mk o t r d p v ty
  | OfferType v => OfferDetail.mk o t r d p f v
  end.
End OfferDetailItemNestedSerializer.

(** ** OfferSerializer *)

Module OfferSerializer.
Import OfferDetailItemNestedSerializer.

(** The serializer's validated data: each of the four writable keys may be
    absent; [image] may be present and null. *)
Record attrs := mk_attrs {
  title : option string;
  image : option (option string);
  description : option string;
  details : option (list (list item)) }.

Definition WrongDetailCount : exn :=
  ValidationError (NonField "Exactly 3 details must be provided.").
Definition DuplicateOrMissingTier : exn :=
  ValidationError
    (NonField "Each offer_type (basic, standard, premium) must appear exactly once.").
Definition MissingOfferType : exn :=
  ValidationError (NonField "Each detail must include 'offer_type'.").
Definition DuplicateOfferType : exn :=
  ValidationError (NonField "Duplicate offer_type values are not allowed.").
Definition DetailNotFound (offer_type : string) : exn :=
  ValidationError
    (NonField ("Detail with offer_type '" +:+ offer_type +:+ "' does not exist.")).

(** [not details]: the key is absent or the list is empty. *)
Definition not_ {A} (l : option (list A)) : bool :=
  match l with
  | None | Some [] => true
  | Some (_ :: _) => false
  end.

Definition required : gset (option string) :=
  {[ Some "basic"; Some "standard"; Some "premium" ]}.

(** [len(types) != len(set(types))] *)
Definition has_duplicates (types : list (option string)) : bool :=
  bool_decide (length types ≠ size (list_to_set types : gset (option string))).

Definition validate (instance : option (Z * Offer.t)) (a : attrs) : result attrs :=
  match instance with
  | None =>
      let details := details a in
      if not_ details || bool_decide (length (default [] details) ≠ 3%nat)
      then Raise WrongDetailCount
      else
        let types := get_offer_type <$> default [] details in
        if bool_decide (list_to_set types ≠ required) || has_duplicates types
        then Raise DuplicateOrMissingTier
        else Ok a
  | Some _ =>
      let details := details a in
      if not_ details then Ok a
      else
        let missing_offer_type :=
          filter (λ d, get_offer_type d = None) (default [] details) in
        if negb (bool_decide (missing_offer_type = []))
        then Raise MissingOfferType
        else
          let types := get_offer_type <$> default [] details in
          if has_duplicates types then Raise DuplicateOfferType else Ok a
  end.

(** [Offer.objects.create]: insert a row under a new key. *)
Definition Offer_create (row : Offer.t) : M (Z * Offer.t) :=
  λ st, let pk := next_pk (Offer_objects st) in
        (Ok (pk, row), with_offers (insert pk row) st).

(** [OfferDetail.objects.create] with [offer] and the items of [detail] as
    keyword arguments.  On a create every nested field is required, so each
    key of [detail] is present and overwrites the initial value. *)
Definition OfferDetail_create (offer : Z) (detail : list item) : M () :=
  write (λ st,
    let row := foldl setattr (OfferDetail.mk offer "" 0 0 0 [] "") detail in
    with_details (insert (next_pk (OfferDetail_objects st)) row) st).

(** [validated_data] also carries the keyword arguments of [save]; the
    caller passes the owner as [user]. *)
Definition create (user : Z) (validated_data : attrs) : M (Z * Offer.t) :=
  detail_data <-
    lift (match details validated_data with
          | Some l => Ok l
          | None => Raise (KeyError "details")
          end) ;;
  offer <- Offer_create
             (Offer.mk user (default "" (title validated_data))
                       (default None (image validated_data))
                       (default "" (description validated_data))) ;;
  for_each detail_data (λ detail, OfferDetail_create offer.1 detail) ;;;
  ret offer.

(** [instance.details.get(offer_type=t)]: the one child of the Offer with
    that type. *)
Definition details_get (instance_pk : Z) (t : string) : M (Z * OfferDetail.t) :=
  λ st,
    match map_to_list
            (filter (λ kd, OfferDetail.offer kd.2 = instance_pk
                           ∧ OfferDetail.offer_type kd.2 = t)
                    (OfferDetail_objects st)) with
    | [] => (Raise DoesNotExist, st)
    | [kd] => (Ok kd, st)
    | _ => (Raise MultipleObjectsReturned, st)
    end.

(** The body of the loop over [detail.items()]. *)
Definition patch_item (single_detail : OfferDetail.t) (i : item) : OfferDetail.t :=
  if String.eqb (key i) "offer_type" then single_detail
  else setattr single_detail i.

(** The body of the loop over [detail_data]. *)
Definition patch_detail (instance_pk : Z) (detail : list item) : M () :=
  offer_type <- lift (getitem_offer_type detail) ;;
  single_detail <-
    except_DoesNotExist (details_get instance_pk offer_type)
                        (DetailNotFound offer_type) ;;
  write (with_details (insert single_detail.1
                              (foldl patch_item single_detail.2 detail))).

(** The scalar fields after the three [validated_data.get(k, instance.k)]
    assignments. *)
Definition merge (instance : Offer.t) (validated_data : attrs) : Offer.t :=
  Offer.mk (Offer.user instance)
           (default (Offer.title instance) (title validated_data))
           (default (Offer.image instance) (image validated_data))
           (default (Offer.description instance) (description validated_data)).

Definition update (pk : Z) (instance : Offer.t) (validated_data : attrs)
  : M (Z * Offer.t) :=
  let detail_data := details validated_data in
  let instance := merge instance validated_data in
  write (with_offers (insert pk instance)) ;;;
  (if not_ detail_data then ret ()
   else for_each (default [] detail_data) (patch_detail pk)) ;;;
  ret (pk, instance).

(** A create request: [is_valid()] and, only when it passes, [save()]. *)
Definition handle_create (user : Z) (data : attrs) : M (Z * Offer.t) :=
  validated_data <- lift (validate None data) ;;
  create user validated_data.

(** An update request on an existing instance. *)
Definition handle_update (pk : Z) (instance : Offer.t) (data : attrs)
  : M (Z * Offer.t) :=
  validated_data <- lift (validate (Some (pk, instance)) data) ;;
  update pk instance validated_data.
End OfferSerializer.

(** ** The framework's fields

    What [rest_framework.serializers] does with the field declarations of
    this module: [run_validation] of one field on the value found under its
    name in the request body ([None] when the key is absent). *)

Module serializers.
(** A field yields a validated value, is skipped, or fails with a code. *)
Inductive outcome (A : Type) :=
| Value (a : A)
| Skip
| Fail (c : code.t).
Arguments Value {A} a.
Arguments Skip {A}.
Arguments Fail {A} c.

Definition value_of {A} (o : outcome A) : option A :=
  match o with Value a => Some a | _ => None end.

(** The entry a field contributes to the error dict. *)
Definition error_of {A} (name : string) (o : outcome A) : list (string * ErrorDetail) :=
  match o with Fail c => [(name, Code c)] | _ => [] end.

(** [validate_empty_values] for a required field that does not allow null:
    an absent key is skipped on a partial update and an error otherwise. *)
Definition validate_empty_values {A} (partial : bool) (data : option value)
    (to_internal_value : value → outcome A) : outcome A :=
  match data with
  | None => if partial then Skip else Fail code.required
  | Some VNone => Fail code.null
  | Some v => to_internal_value v
  end.

Section fields.
Context `{Python}.

(** [IntegerField.MAX_STRING_LENGTH] *)
Definition MAX_STRING_LENGTH : nat := 1000.

(** [IntegerField.to_internal_value]: a text of more than MAX_STRING_LENGTH
    characters is refused; otherwise [int(re_decimal.sub('', str(data)))],
    [invalid] when that raises.  The text of an integer converts back to
    the integer; the text of a boolean, an array or an object does not
    convert. *)
Definition IntegerField_to_internal_value (data : value) : outcome Z :=
  let convert (text : string) : outcome Z :=
    match str_int (re_decimal_sub text) with
    | Some z => Value z
    | None => Fail code.invalid
    end in
  match data with
  | VStr s =>
      if bool_decide (MAX_STRING_LENGTH < str_len s)%nat then Fail code.max_string_length
      else convert s
  | VInt z => Value z
  | VFloat f => convert (float_str f)
  | VNone | VBool _ | VArray | VObject => Fail code.invalid
  end.

(** [IntegerField(min_value=.., max_value=..)]: the converted value goes
    through the two bound validators, [max_value] first. *)
Definition IntegerField (min_value max_value : option Z) (partial : bool)
    (data : option value) : outcome Z :=
  validate_empty_values partial data (λ v,
    match IntegerField_to_internal_value v with
    | Value z =>
        if from_option (λ hi, bool_decide (hi < z)) false max_value then Fail code.max_value
        else if from_option (λ lo, bool_decide (z < lo)) false min_value then Fail code.min_value
        else Value z
    | o => o
    end).

(** A NUL character in the text. *)
Fixpoint has_nul (s : string) : bool :=
  match s with
  | EmptyString => false
  | String a s' => Ascii.eqb a "000"%char || has_nul s'
  end.

(** [str(data)] for the values [CharField] turns into text: strings,
    integers and floats. *)
Definition text_of (data : value) : option string :=
  match data with
  | VStr s => Some s
  | VInt z => Some (pretty z)
  | VFloat f => Some (float_str f)
  | VNone | VBool _ | VArray | VObject => None
  end.

(** [CharField()]: [run_validation] refuses as blank the empty string and
    any value whose text is white space only (the text of null, of a
    boolean, of an array or of an object is not); [to_internal_value] takes
    the trimmed text of a string, an integer or a float and refuses the
    other values; the validator refuses a NUL character.  (The validator
    for surrogate characters never fires on well-formed text.) *)
Definition CharField (partial : bool) (data : option value) : outcome string :=
  match data with
  | Some (VStr EmptyString) => Fail code.blank
  | _ =>
      match data ≫= text_of with
      | Some text =>
          if bool_decide (str_strip text = "") then Fail code.blank
          else if has_nul (str_strip text) then Fail code.null_characters_not_allowed
          else Value (str_strip text)
      | None => validate_empty_values partial data (λ _, Fail code.invalid)
      end
  end.

(** [PrimaryKeyRelatedField(queryset=..)]: an empty string counts as null;
    a boolean is refused; otherwise [queryset.get(pk=data)], where the ORM
    converts the value with [int], which rounds a float towards zero and
    raises for an array, an object or a text that is no integer. *)
Definition PrimaryKeyRelatedField {A} (queryset : gmap Z A) (partial : bool)
    (data : option value) : outcome (Z * A) :=
  validate_empty_values partial data (λ v,
    let pk :=
      match v with
      | VStr EmptyString | VNone | VBool _ | VArray | VObject => None
      | VStr s => str_int s
      | VInt z => Some z
      | VFloat f => Some (float_int f)
      end in
    match v, pk with
    | VStr EmptyString, _ => Fail code.null
    | _, None => Fail code.incorrect_type
    | _, Some pk =>
        match queryset !! pk with
        | Some obj => Value (pk, obj)
        | None => Fail code.does_not_exist
        end
    end).
End fields.

(** [ChoiceField(choices=..)]: the text of the value must be one of the
    labels, and the text of a non-string value is none of them. *)
Definition ChoiceField (choices : list string) (partial : bool)
    (data : option value) : outcome string :=
  validate_empty_values partial data (λ v,
    match v with
    | VStr s => if bool_decide (s ∈ choices) then Value s else Fail code.invalid_choice
    | _ => Fail code.invalid_choice
    end).

(** The end of [to_internal_value]: the collected field errors are raised
    together, and the validated data is returned when there are none. *)
Definition collect {A} (errors : list (string * ErrorDetail)) (ret : A) : result A :=
  match errors with
  | [] => Ok ret
  | _ => Raise (ValidationError (ByField errors))
  end.
End serializers.

(** ** OrderSerializer *)

Module OrderSerializer.
(** The fields the serializer exposes (without the key and the time
    stamps); the six commercial terms have [source='offer_detail.<name>']. *)
Record representation := mk_representation {
  customer_user : Z;
  business_user : Z;
  status : string;
  title : string;
  revisions : Z;
  delivery_time_in_days : Z;
  price : Z;
  features : list string;
  offer_type : string }.

(** Each of the six fields is read from the instance's [offer_detail]
    attribute when the Order is serialized. *)
Definition to_representation (instance : Order.t) : representation :=
  let offer_detail := Order.offer_detail instance in
  mk_representation
    (Order.customer_user instance) (Order.business_user instance)
    (Order.status instance)
    (Order.title offer_detail) (Order.revisions offer_detail)
    (Order.delivery_time_in_days offer_detail)
    (Order.price offer_detail) (Order.features offer_detail)
    (Order.offer_type offer_detail).

(** The commercial terms of a serialized Order. *)
Definition commercial_terms (r : representation)
  : string * Z * Z * Z * list string * string :=
  (title r, revisions r, delivery_time_in_days r, price r, features r, offer_type r).
End OrderSerializer.

(** ** OrderStatusUpdateSerializer *)

Module OrderStatusUpdateSerializer.
Import serializers.

Definition ForbiddenFields (forbidden : list string) : exn :=
  ValidationError (NonField ("Forbidden fields: " +:+ join ", " forbidden)).
Definition EmptyUpdate : exn :=
  ValidationError (NonField "No data provided.").

(** Every name of [Meta.fields] but [status] is read-only, and
    [offer_detail_id] is not in [Meta.fields]: [status] is the one field
    read from the request body, and every other key of the body is
    ignored. *)
Definition to_internal_value (partial : bool) (data : dict) : result dict :=
  let status := ChoiceField Order.STATUS_CHOICES partial (dict_get data "status") in
  collect (error_of "status" status)
          (from_option (λ s, [("status", VStr s)]) [] (value_of status)).

(** [forbidden] is listed in the order of [attrs]; the source iterates a
    set, whose order is not fixed. *)
Definition validate (attrs : dict) : result dict :=
  let allowed := ["status"] in
  let forbidden := filter (λ k, k ∉ allowed) (dict_keys attrs) in
  match forbidden with
  | _ :: _ => Raise (ForbiddenFields forbidden)
  | [] =>
      match attrs with
      | [] => Raise EmptyUpdate
      | _ => Ok attrs
      end
  end.

Definition run_validation (partial : bool) (data : dict) : result dict :=
  match to_internal_value partial data with
  | Ok attrs => validate attrs
  | Raise e => Raise e
  end.

(** The inherited [update]: each validated item is set on the instance,
    which is then saved. *)
Definition setattr (instance : Order.t) (kv : string * value) : Order.t :=
  match kv with
  | ("status"%string, VStr s) =>
      Order.mk (Order.customer_user instance) (Order.business_user instance) s
               (Order.offer_detail_id instance) (Order.offer_detail instance)
  | _ => instance
  end.

Definition update (pk : Z) (instance : Order.t) (validated_data : dict)
  : M (Z * Order.t) :=
  let instance := foldl setattr instance validated_data in
  write (with_orders (insert pk instance)) ;;;
  ret (pk, instance).

(** A status patch: [is_valid()] and, only when it passes, [save()]. *)
Definition handle_update (partial : bool) (pk : Z) (instance : Order.t) (data : dict)
  : M (Z * Order.t) :=
  validated_data <- lift (run_validation partial data) ;;
  update pk instance validated_data.
End OrderStatusUpdateSerializer.

(** ** ReviewSerializer *)

Module ReviewSerializer.
Import serializers.

(** The validated data: [business_user] is the User the key resolved to. *)
Record attrs := mk_attrs {
  business_user : option (Z * User.t);
  rating : option Z;
  description : option string }.

Definition TargetNotBusiness : exn :=
  ValidationError (ByField [("business_user", Message "Must be a business profile.")]).
Definition DuplicateReview : exn :=
  ValidationError (NonField "You have already reviewed this business user.").

Section with_python.
Context `{Python}.

(** The writable fields, in the order of [Meta.fields]; [reviewer] is
    read-only. *)
Definition to_internal_value (partial : bool) (data : dict) (st : Store) : result attrs :=
  let business_user :=
    PrimaryKeyRelatedField (User_objects st) partial (dict_get data "business_user") in
  let rating := IntegerField (Some 1) (Some 5) partial (dict_get data "rating") in
  let description := CharField partial (dict_get data "description") in
  collect (error_of "business_user" business_user ++ error_of "rating" rating
           ++ error_of "description" description)
          (mk_attrs (value_of business_user) (value_of rating) (value_of description)).

(** [Review.objects.filter(reviewer=.., business_user=..).exists()] *)
Definition Review_exists (reviewer business_user : Z) (st : Store) : bool :=
  match map_to_list
          (filter (λ kr, Review.reviewer kr.2 = reviewer
                         ∧ Review.business_user kr.2 = business_user)
                  (Review_objects st)) with
  | [] => false
  | _ => true
  end.

(** [user] is the user of the request in the serializer's context, [None]
    when the context carries none.  [hasattr(business_user, "profile")]
    is false for [None] and for a user without a profile. *)
Definition validate (user : option Z) (a : attrs) (st : Store) : result attrs :=
  match business_user a with
  | None => Raise TargetNotBusiness
  | Some (business_user_pk, business_user) =>
      match User.profile business_user with
      | None => Raise TargetNotBusiness
      | Some profile =>
          if bool_decide (Profile.type profile ≠ "business"%string)
          then Raise TargetNotBusiness
          else
            match user with
            | Some user =>
                if Review_exists user business_user_pk st
                then Raise DuplicateReview
                else Ok a
            | None => Ok a
            end
      end
  end.

Definition run_validation (user : option Z) (data : dict) (st : Store) : result attrs :=
  match to_internal_value false data st with
  | Ok a => validate user a st
  | Raise e => Raise e
  end.

(** The inherited [create]: one row from the validated data and the
    keyword arguments of [save], which supply the read-only [reviewer].
    Every field is required on a create, so each key is present. *)
Definition create (reviewer : Z) (validated_data : attrs) : M (Z * Review.t) :=
  λ st,
    let row := Review.mk (default 0 (fst <$> business_user validated_data)) reviewer
                         (default 0 (rating validated_data))
                         (default "" (description validated_data)) in
    let pk := next_pk (Review_objects st) in
    (Ok (pk, row), with_reviews (insert pk row) st).

(** A create request: [is_valid()] and, only when it passes, [save()] with
    the reviewer. *)
Definition handle_create (user : option Z) (reviewer : Z) (data : dict)
  : M (Z * Review.t) :=
  validated_data <- read (run_validation user data) ;;
  create reviewer validated_data.
End with_python.
End ReviewSerializer.

(** ** ReviewPatchSerializer *)

Module ReviewPatchSerializer.
Import serializers.
Import ReviewSerializer(attrs, mk_attrs, business_user, rating, description).

Definition ForbiddenFields (forbidden : list string) : exn :=
  ValidationError
    (ByField [("non_field_errors",
               Message ("Forbidden fields: " +:+ join ", " forbidden))]).

(** The body of a request: a dict, JSON null, or any other value. *)
Inductive request_data :=
| Dict (data : dict)
| Null
| NotADict.

(** What the framework raises for a null body and for a body that is
    neither null nor a dict. *)
Definition NoData : exn :=
  ValidationError (ByField [("non_field_errors", Code code.null)]).
Definition InvalidData : exn :=
  ValidationError (ByField [("non_field_errors", Code code.invalid)]).

(** [sorted(set(initial_data.keys()) & {'business_user', 'reviewer'})] *)
Definition forbidden (initial_data : dict) : list string :=
  filter (λ k, k ∈ dict_keys initial_data) ["business_user"; "reviewer"]%string.

(** [initial_data] is the request body. *)
Definition validate (initial_data : request_data) (a : attrs) : result attrs :=
  match initial_data with
  | Dict initial_data =>
      match forbidden initial_data with
      | _ :: _ => Raise (ForbiddenFields (forbidden initial_data))
      | [] => Ok a
      end
  | Null | NotADict => Ok a
  end.

Section with_python.
Context `{Python}.

(** The three fields declared on [ReviewSerializer] are inherited as they
    are declared: [Meta.read_only_fields] has no effect on a declared
    field, so [business_user] is still read from the request body and
    checked, before [validate] is called. *)
Definition to_internal_value (partial : bool) (data : dict) (st : Store) : result attrs :=
  ReviewSerializer.to_internal_value partial data st.

Definition run_validation (partial : bool) (initial_data : request_data) (st : Store)
  : result attrs :=
  match initial_data with
  | Null => Raise NoData
  | NotADict => Raise InvalidData
  | Dict data =>
      match to_internal_value partial data st with
      | Ok a => validate initial_data a
      | Raise e => Raise e
      end
  end.

(** The inherited [update]: each validated item is set on the instance,
    which is then saved. *)
Definition update (pk : Z) (instance : Review.t) (validated_data : attrs)
  : M (Z * Review.t) :=
  let instance :=
    Review.mk (default (Review.business_user instance)
                       (fst <$> business_user validated_data))
              (Review.reviewer instance)
              (default (Review.rating instance) (rating validated_data))
              (default (Review.description instance) (description validated_data)) in
  write (with_reviews (insert pk instance)) ;;;
  ret (pk, instance).

(** A patch request: [is_valid()] and, only when it passes, [save()]. *)
Definition handle_update (partial : bool) (pk : Z) (instance : Review.t)
    (initial_data : request_data) : M (Z * Review.t) :=
  validated_data <- read (run_validation partial initial_data) ;;
  update pk instance validated_data.
End with_python.
End ReviewPatchSerializer.

(** ** The properties, in the specification's words *)

(** The proposed details are exactly three, one of each tier. *)
Definition three_tiers (a : OfferSerializer.attrs) : Prop :=
  ∃ ds, OfferSerializer.details a = Some ds
        ∧ length ds = 3%nat
        ∧ OfferDetailItemNestedSerializer.get_offer_type <$> ds
            ≡ₚ [Some "basic"; Some "standard"; Some "premium"]%string.

(** The [offer_type] of every child of an Offer, one entry per child. *)
Definition child_types (pk : Z) (st : Store) : list string :=
  (λ kd, OfferDetail.offer_type kd.2)
    <$> map_to_list (filter (λ kd, OfferDetail.offer kd.2 = pk) (OfferDetail_objects st)).

(** The part of a detail row that says whose child it is and of which tier. *)
Definition tag (d : OfferDetail.t) : Z * string :=
  (OfferDetail.offer d, OfferDetail.offer_type d).

(** Every detail row of [st'] is a row of [st] with the same owner and the
    same tier, and the other way round. *)
Definition keeps_tags (st st' : Store) : Prop :=
  tag <$> OfferDetail_objects st' = tag <$> OfferDetail_objects st.

(** No child was added, removed, moved to another Offer or given another
    [offer_type]. *)
Definition same_children (st st' : Store) : Prop :=
  (∀ offer, child_types offer st' = child_types offer st)
  ∧ dom (OfferDetail_objects st') = dom (OfferDetail_objects st)
  ∧ (∀ k, OfferDetail.offer_type <$> OfferDetail_objects st' !! k
          = OfferDetail.offer_type <$> OfferDetail_objects st !! k)
  ∧ (∀ k, OfferDetail.offer <$> OfferDetail_objects st' !! k
          = OfferDetail.offer <$> OfferDetail_objects st !! k).

(** The error dict names [rating] with a bound violation. *)
Definition RatingOutOfRange (e : exn) : Prop :=
  ∃ errs, e = ValidationError (ByField errs)
          ∧ (("rating"%string, Code code.min_value) ∈ errs
             ∨ ("rating"%string, Code code.max_value) ∈ errs).

(** The error dict names [description] as blank. *)
Definition EmptyDescription (e : exn) : Prop :=
  ∃ errs, e = ValidationError (ByField errs)
          ∧ ("description"%string, Code code.blank) ∈ errs.

(** No two Review rows have the same reviewer and the same target. *)
Definition unique_pairs (st : Store) : Prop :=
  ∀ k1 k2 r1 r2,
    Review_objects st !! k1 = Some r1 → Review_objects st !! k2 = Some r2 →
    Review.reviewer r1 = Review.reviewer r2 →
    Review.business_user r1 = Review.business_user r2 →
    k1 = k2.

(** ** The runtime, to run the examples

    An instance of [Python] for the examples at the end of each section:
    the text functions on UTF-8 bytes.  White space is the set of
    [str.isspace], and [int] skips the same set without the four separators
    [0x1c] to [0x1f].  Two simplifications, which the examples stay clear
    of: [int] reads ASCII digits only, where the interpreter also reads
    the decimal digits of other scripts, and [repr] prints the exact
    decimal value of a float, where the interpreter prints the shortest text
    that reads back as the float. *)

Module cpython.
Definition bytes (l : list nat) : string :=
  String.string_of_list_ascii (ascii_of_nat <$> l).

(** The characters of [str.isspace], in UTF-8. *)
Definition white_space : list string :=
  bytes <$> [[9]; [10]; [11]; [12]; [13]; [28]; [29]; [30]; [31]; [32];
             [194; 133]; [194; 160]; [225; 154; 128];
             [226; 128; 128]; [226; 128; 129]; [226; 128; 130]; [226; 128; 131];
             [226; 128; 132]; [226; 128; 133]; [226; 128; 134]; [226; 128; 135];
             [226; 128; 136]; [226; 128; 137]; [226; 128; 138];
             [226; 128; 168]; [226; 128; 169]; [226; 128; 175];
             [226; 129; 159]; [227; 128; 128]]%nat.

(** The white space [int] skips. *)
Definition int_white_space : list string :=
  filter (λ w, w ∉ bytes <$> [[28]; [29]; [30]; [31]]%nat) white_space.

(** [s] without the prefix [w], when it has it. *)
Fixpoint strip_prefix (w s : string) : option string :=
  match w, s with
  | EmptyString, _ => Some s
  | String a w', String b s' => if Ascii.eqb a b then strip_prefix w' s' else None
  | String _ _, EmptyString => None
  end.

Definition strip_first (white : list string) (s : string) : option string :=
  list_find (λ r, is_Some r) ((λ w, strip_prefix w s) <$> white) ≫= λ ir, ir.2.

Fixpoint lstrip_go (white : list string) (fuel : nat) (s : string) : string :=
  match fuel with
  | O => s
  | S fuel =>
      match strip_first white s with
      | Some rest => lstrip_go white fuel rest
      | None => s
      end
  end.

Definition lstrip (white : list string) (s : string) : string :=
  lstrip_go white (String.length s) s.

Definition strip_of (white : list string) (s : string) : string :=
  String.rev (lstrip (String.rev <$> white) (String.rev (lstrip white s))).

Definition strip : string → string := strip_of white_space.

(** The bytes that start a character. *)
Definition len (s : string) : nat :=
  length (filter (λ a, ¬ (128 ≤ nat_of_ascii a < 192)%nat) (String.list_ascii_of_string s)).

(** Decimal digits, with single underscores between them. *)
Fixpoint digits (s : string) (acc : Z) (after_digit : bool) : option Z :=
  match s with
  | EmptyString => if after_digit then Some acc else None
  | String a s' =>
      if Ascii.eqb a "_"%char then (if after_digit then digits s' acc false else None)
      else match Ascii.is_nat a with
           | Some d => digits s' (10 * acc + Z.of_nat d) true
           | None => None
           end
  end.

Definition int (s : string) : option Z :=
  match strip_of int_white_space s with
  | String "-"%char s' => Z.opp <$> digits s' 0 false
  | String "+"%char s' => digits s' 0 false
  | s' => digits s' 0 false
  end.

(** Zeros, then white space, up to the end: what [re_decimal] matches after
    a dot. *)
Fixpoint zeros_then_space (s : string) : bool :=
  match s with
  | String a s' =>
      if Ascii.eqb a "0"%char then zeros_then_space s'
      else bool_decide (lstrip white_space s = "")
  | EmptyString => true
  end.

Fixpoint sub (s : string) : string :=
  match s with
  | EmptyString => EmptyString
  | String a s' =>
      if Ascii.eqb a "."%char && zeros_then_space s' then EmptyString
      else String a (sub s')
  end.

Fixpoint rstrip_zeros_go (rev_s : string) : string :=
  match rev_s with
  | String a s' => if Ascii.eqb a "0"%char then rstrip_zeros_go s' else rev_s
  | EmptyString => EmptyString
  end.
Definition rstrip_zeros (s : string) : string := String.rev (rstrip_zeros_go (String.rev s)).

Fixpoint zeros (n : nat) : string :=
  match n with O => "" | S n => String "0" (zeros n) end.

(** The digits of a float: [k.0] for a whole number below [10 ^ 16], the
    exponent form from there on, the whole and the fractional digits
    otherwise. *)
Definition repr (f : float) : string :=
  let sign : string := if negative f then "-" else "" in
  let m := Z.of_N (mantissa f) in
  let e := exponent f in
  let k := Z.to_nat (- e) in
  let whole := if bool_decide (0 ≤ e) then m * 2 ^ e else m `div` 2 ^ (- e) in
  let rest := if bool_decide (0 ≤ e) then 0 else m `mod` 2 ^ (- e) in
  if bool_decide (rest = 0) then
    if bool_decide (whole < 10 ^ 16) then sign +:+ pretty whole +:+ ".0"
    else
      match pretty whole with
      | String d ds =>
          let fraction := rstrip_zeros ds in
          sign +:+ String d (if bool_decide (fraction = "") then "" else "." +:+ fraction)
               +:+ "e+" +:+ pretty (String.length ds)
      | EmptyString => sign
      end
  else
    let fraction := pretty (rest * 5 ^ (- e)) in
    sign +:+ pretty whole +:+ "."
         +:+ rstrip_zeros (zeros (k - String.length fraction) +:+ fraction).

Definition python : Python := {|
  str_strip := strip;
  str_len := len;
  str_int := int;
  float_str := repr;
  re_decimal_sub := sub |}.
End cpython.

(** ** A small database to run the serializers on *)

Module Example.
Import OfferDetailItemNestedSerializer.

Definition logo : Offer.t := Offer.mk 7 "Logo" None "A logo".
Definition standard : OfferDetail.t :=
  OfferDetail.mk 1 "Standard" 2 5 100 ["Logo"] "standard".
Definition premium : OfferDetail.t :=
  OfferDetail.mk 1 "Premium" 5 7 200 ["Logo"; "Card"] "premium".
Definition order : Order.t :=
  Order.mk 3 7 "pending" 10 (Order.mk_terms "Standard" 2 5 100 ["Logo"] "standard").
Definition review : Review.t := Review.mk 7 3 4 "Good work".
Definition customer : User.t := User.mk (Some (Profile.mk "customer")).
Definition business : User.t := User.mk (Some (Profile.mk "business")).

(** An Offer of user 7 whose [basic] child is missing, an Order of user 3
    against its [standard] child, with the terms of that child, and a Review
    of 7 by 3. *)
Definition st : Store :=
  mkStore {[ 1 := logo ]} {[ 10 := standard; 11 := premium ]}
          {[ 20 := order ]} {[ 30 := review ]}
          {[ 3 := customer; 7 := business ]}.

(** A new title, a price for [standard] and a price for [basic]. *)
Definition retitle_and_patch : OfferSerializer.attrs :=
  OfferSerializer.mk_attrs (Some "Logo design") None None
    (Some [[OfferType "standard"; Price 50]; [OfferType "basic"; Price 50]]).

(** [st] after the title and the [standard] price have been written. *)
Definition st_half_written : Store :=
  mkStore {[ 1 := Offer.mk 7 "Logo design" None "A logo" ]}
          {[ 10 := OfferDetail.mk 1 "Standard" 2 5 50 ["Logo"] "standard";
             11 := premium ]}
          {[ 20 := order ]} {[ 30 := review ]}
          {[ 3 := customer; 7 := business ]}.

Definition patch_basic : OfferSerializer.attrs :=
  OfferSerializer.mk_attrs None None None (Some [[OfferType "basic"; Price 50]]).

Definition patch_standard : OfferSerializer.attrs :=
  OfferSerializer.mk_attrs None None None (Some [[OfferType "standard"; Price 50]]).

(** [st] after [patch_standard]. *)
Definition st_patched : Store :=
  mkStore {[ 1 := logo ]}
          {[ 10 := OfferDetail.mk 1 "Standard" 2 5 50 ["Logo"] "standard";
             11 := premium ]}
          {[ 20 := order ]} {[ 30 := review ]}
          {[ 3 := customer; 7 := business ]}.

(** User 3 reviews user 7 a second time. *)
Definition second_review : dict :=
  [("business_user", VInt 7); ("rating", VInt 5); ("description", VStr "Again")]%string.
Definition second_review_attrs : ReviewSerializer.attrs :=
  ReviewSerializer.mk_attrs (Some (7, business)) (Some 5) (Some "Again"%string).

Definition status_and_price : dict :=
  [("status", VStr "completed"); ("price", VInt 10)]%string.
Definition price_only : dict := [("price", VInt 10)]%string.
Definition completed : Order.t :=
  Order.mk 3 7 "completed" 10 (Order.mk_terms "Standard" 2 5 100 ["Logo"] "standard").

Definition rating_nine : dict :=
  [("business_user", VInt 7); ("rating", VInt 9); ("description", VStr "")]%string.

(** A creation request for user 7 with the three tiers. *)
Definition new_offer : OfferSerializer.attrs :=
  OfferSerializer.mk_attrs (Some "Flyer") None (Some "A flyer")
    (Some [[Title "Basic"; Revisions 1; DeliveryTimeInDays 3; Price 50;
            Features ["Flyer"]; OfferType "basic"];
           [Title "Standard"; Revisions 2; DeliveryTimeInDays 5; Price 100;
            Features ["Flyer"; "Source"]; OfferType "standard"];
           [Title "Premium"; Revisions 5; DeliveryTimeInDays 7; Price 200;
            Features ["Flyer"; "Source"; "Print"]; OfferType "premium"]]).

(** [st] after that request. *)
Definition st_created : Store := (OfferSerializer.handle_create 7 new_offer st).2.

Definition status_completed : dict := [("status", VStr "completed")]%string.
End Example.

(** ** Reading a detail row by field name *)

(** [getattr(obj, name)] on an OfferDetail instance, for the names of the
    nested serializer's writable fields: the field's value, as the item a
    validated dict would hold under that name. *)
Definition getattr (obj : OfferDetail.t) (name : string)
  : option OfferDetailItemNestedSerializer.item :=
  if String.eqb name "title"
  then Some (OfferDetailItemNestedSerializer.Title (OfferDetail.title obj))
  else if String.eqb name "revisions"
  then Some (OfferDetailItemNestedSerializer.Revisions (OfferDetail.revisions obj))
  else if String.eqb name "delivery_time_in_days"
  then Some (OfferDetailItemNestedSerializer.DeliveryTimeInDays
               (OfferDetail.delivery_time_in_days obj))
  else if String.eqb name "price"
  then Some (OfferDetailItemNestedSerializer.Price (OfferDetail.price obj))
  else if String.eqb name "features"
  then Some (OfferDetailItemNestedSerializer.Features (OfferDetail.features obj))
  else if String.eqb name "offer_type"
  then Some (OfferDetailItemNestedSerializer.OfferType (OfferDetail.offer_type obj))
  else None.

(** The tables an Offer update has no business with. *)
Definition other_tables (st : Store) : gmap Z Order.t * gmap Z Review.t * gmap Z User.t :=
  (Order_objects st, Review_objects st, User_objects st).

(** The target of the validated data is a user with a business profile. *)
Definition business_target (a : ReviewSerializer.attrs) : Prop :=
  ∃ target profile,
    ReviewSerializer.business_user a = Some target
    ∧ User.profile target.2 = Some profile
    ∧ Profile.type profile = "business"%string.

(** The store holds a Review of [business_user] by [reviewer]. *)
Definition reviewed (reviewer business_user : Z) (st : Store) : Prop :=
  ∃ k row, Review_objects st !! k = Some row
           ∧ Review.reviewer row = reviewer
           ∧ Review.business_user row = business_user.

(** * Properties *)

Import OfferDetailItemNestedSerializer OfferSerializer.

(** ** Loops over the store *)

Section for_each.
Context {T : Type} (body : T → M ()).

Lemma for_each_Ok (l : list T) st :
  (∀ x st, ∃ st', body x st = (Ok (), st')) →
  ∃ st', for_each l body st = (Ok (), st').
Proof.
  intros Hbody. revert st. induction l as [|x l IH]; intros st; simpl.
  - by eexists.
  - destruct (Hbody x st) as [st1 H1]. unfold bind. rewrite H1. apply IH.
Qed.

(** A loop that raises has run a prefix of the list to the end and failed
    in the body of the next element. *)
Lemma for_each_Raise_split (l : list T) st e st' :
  for_each l body st = (Raise e, st') →
  ∃ done p rest st1,
    l = done ++ p :: rest
    ∧ for_each done body st = (Ok (), st1)
    ∧ body p st1 = (Raise e, st').
Proof.
  revert st. induction l as [|x l IH]; intros st; simpl; [done|].
  unfold bind at 1. destruct (body x st) as [[[]|e1] st1] eqn:Hx.
  - intros (done & p & rest & st2 & -> & Hdone & Hp)%IH.
    exists (x :: done), p, rest, st2. split; [done|]. split; [|done].
    simpl. unfold bind. by rewrite Hx.
  - intros [= <- <-]. by exists [], x, l, st.
Qed.

(** An invariant of the body is an invariant of the loop, however it
    ends. *)
Lemma for_each_invariant (R : Store → Store → Prop) (l : list T) st r st' :
  (∀ st, R st st) →
  (∀ st1 st2 st3, R st1 st2 → R st2 st3 → R st1 st3) →
  (∀ x st r st', body x st = (r, st') → R st st') →
  for_each l body st = (r, st') → R st st'.
Proof.
  intros Hrefl Htrans Hbody. revert st.
  induction l as [|x l IH]; intros st; simpl.
  - intros [= <- <-]. apply Hrefl.
  - unfold bind. destruct (body x st) as [[[]|e] st1] eqn:H1.
    + intros H2%IH. eapply Htrans; [|exact H2]. by eapply Hbody.
    + intros [= <- <-]. by eapply Hbody.
Qed.
End for_each.

(** ** Sets of offer types *)

Section list_to_set.
Context `{Countable T}.

Lemma list_to_set_cons_elem (x : T) (l : list T) :
  x ∈ l → ({[x]} ∪ list_to_set l : gset T) = list_to_set l.
Proof.
  intros Hx. apply subseteq_union_1_L, singleton_subseteq_l.
  by apply elem_of_list_to_set.
Qed.

Lemma size_list_to_set_cons (x : T) (l : list T) :
  x ∉ l → size ({[x]} ∪ list_to_set l : gset T) = S (size (list_to_set l : gset T)).
Proof.
  intros Hx. rewrite size_union, size_singleton; [done|].
  apply disjoint_singleton_l. by rewrite elem_of_list_to_set.
Qed.

Lemma size_list_to_set_le (l : list T) :
  (size (list_to_set l : gset T) ≤ length l)%nat.
Proof.
  induction l as [|x l IH].
  - rewrite list_to_set_nil, size_empty. simpl. lia.
  - rewrite list_to_set_cons. cbn [length].
    destruct (decide (x ∈ l)) as [Hin|Hin].
    + rewrite list_to_set_cons_elem by done. lia.
    + rewrite size_list_to_set_cons by done. lia.
Qed.

(** [len(l) == len(set(l))] says that [l] has no repeats. *)
Lemma length_size_NoDup (l : list T) :
  length l = size (list_to_set l : gset T) → NoDup l.
Proof.
  induction l as [|x l IH]; intros Hlen; [constructor|].
  rewrite list_to_set_cons in Hlen. cbn [length] in Hlen.
  destruct (decide (x ∈ l)) as [Hin|Hin].
  - exfalso. rewrite list_to_set_cons_elem in Hlen by done.
    pose proof (size_list_to_set_le l). lia.
  - constructor; [done|]. apply IH.
    rewrite size_list_to_set_cons in Hlen by done. lia.
Qed.
End list_to_set.

Lemma has_duplicates_false types : has_duplicates types = false ↔ NoDup types.
Proof.
  unfold has_duplicates. rewrite bool_decide_eq_false. split.
  - intros Hn. apply length_size_NoDup. by apply dec_stable.
  - intros Hnd Hne. apply Hne. symmetry. by apply size_list_to_set.
Qed.

Lemma tiers_set (types : list (option string)) :
  list_to_set types = required ∧ NoDup types
  ↔ types ≡ₚ [Some "basic"; Some "standard"; Some "premium"]%string.
Proof.
  assert (Hnd3 : NoDup [Some "basic"; Some "standard"; Some "premium"]%string).
  { apply (bool_decide_unpack _). by vm_compute. }
  assert (Hreq : ∀ x, x ∈ required
                      ↔ x ∈ [Some "basic"; Some "standard"; Some "premium"]%string).
  { intros x. unfold required.
    rewrite !elem_of_union, !elem_of_singleton, !elem_of_cons, elem_of_nil. tauto. }
  split.
  - intros [Hset Hnd]. apply NoDup_Permutation; [done..|].
    intros x. by rewrite <- (elem_of_list_to_set (C:=gset (option string))), Hset.
  - intros Hperm. split.
    + apply set_eq. intros x. by rewrite elem_of_list_to_set, Hperm.
    + by rewrite Hperm.
Qed.

(** ** Offer creation *)

Lemma validate_Ok_id instance a a' : validate instance a = Ok a' → a' = a.
Proof. unfold validate. destruct instance; repeat case_match; congruence. Qed.

Lemma validate_create_Ok a : validate None a = Ok a ↔ three_tiers a.
Proof.
  unfold validate, three_tiers. split.
  - destruct (details a) as [[|d ds]|] eqn:Hd; simpl; try done.
    case_bool_decide as Hlen; simpl; [done|].
    case_bool_decide as Hset; simpl; [done|].
    destruct (has_duplicates _) eqn:Hdup; [done|]. intros _.
    exists (d :: ds). split; [done|]. split; [simpl in *; lia|].
    apply tiers_set. split; [exact Hset|by apply has_duplicates_false].
  - intros (ds & -> & Hlen & Hperm). apply tiers_set in Hperm as [Hset Hnd].
    apply has_duplicates_false in Hnd.
    destruct ds as [|d ds]; [done|]. cbn [not_ from_option id orb].
    rewrite Hnd, Hset, Hlen. rewrite !bool_decide_eq_false_2; [done|auto..].
Qed.

Lemma validate_create_Raise a e :
  validate None a = Raise e → e = WrongDetailCount ∨ e = DuplicateOrMissingTier.
Proof. unfold validate. repeat case_match; intros [= <-]; auto. Qed.

Lemma create_Ok user a l st :
  details a = Some l → ∃ offer st', create user a st = (Ok offer, st').
Proof.
  intros Hl. unfold create. rewrite Hl. unfold bind at 1, lift.
  unfold bind at 1, Offer_create. unfold bind.
  edestruct (for_each_Ok (T:=list item)) as [st' ->]; [|by eexists _, _].
  intros x st1. unfold OfferDetail_create, write. by eexists.
Qed.

(** C1. An Offer creation succeeds exactly when the proposed details are
    three entries whose [offer_type] values are basic, standard and premium,
    each once; with any other details it fails with WrongDetailCount or
    DuplicateOrMissingTier and the store is left as it was: no Offer and no
    OfferDetail row is written. *)
Theorem C1_create_needs_three_tiers user data st :
  (three_tiers data ∧ ∃ offer st', handle_create user data st = (Ok offer, st'))
  ∨ (¬ three_tiers data
     ∧ (handle_create user data st = (Raise WrongDetailCount, st)
        ∨ handle_create user data st = (Raise DuplicateOrMissingTier, st))).
Proof.
  unfold handle_create, bind, lift.
  destruct (validate None data) as [a|e] eqn:Hv.
  - left. pose proof (validate_Ok_id _ _ _ Hv) as ->.
    apply validate_create_Ok in Hv as Ht. split; [done|].
    destruct Ht as (ds & Hds & _). by eapply create_Ok.
  - right. split.
    + intros Ht%validate_create_Ok. congruence.
    + apply validate_create_Raise in Hv as [-> | ->]; auto.
Qed.

(** ** Offer update: what the detail patches touch *)

Lemma details_get_Ok pk t st kd st' :
  details_get pk t st = (Ok kd, st') →
  st' = st ∧ OfferDetail_objects st !! kd.1 = Some kd.2
  ∧ OfferDetail.offer kd.2 = pk ∧ OfferDetail.offer_type kd.2 = t
  ∧ (∀ k d, OfferDetail_objects st !! k = Some d →
            OfferDetail.offer d = pk → OfferDetail.offer_type d = t → k = kd.1).
Proof.
  unfold details_get.
  destruct (map_to_list _) as [|kd' [|? ?]] eqn:Hl; intros [= <- <-].
  assert (Hin : ∀ x, x ∈ map_to_list
                  (filter (λ kd, OfferDetail.offer kd.2 = pk
                                 ∧ OfferDetail.offer_type kd.2 = t)
                          (OfferDetail_objects st)) ↔ x = kd').
  { intros x. rewrite Hl. apply list_elem_of_singleton. }
  destruct kd' as [k d].
  pose proof (proj2 (Hin (k, d)) eq_refl) as Hkd.
  apply elem_of_map_to_list, map_lookup_filter_Some in Hkd as [Hk [Ho Ht]].
  repeat split; try done.
  intros k' d' Hk' Ho' Ht'.
  assert (Heq : (k', d') = (k, d)); [|by inversion Heq].
  apply Hin, elem_of_map_to_list, map_lookup_filter_Some. done.
Qed.

Lemma details_get_Raise pk t st e st' :
  details_get pk t st = (Raise e, st') →
  st' = st ∧ (e = DoesNotExist ∨ e = MultipleObjectsReturned).
Proof.
  unfold details_get.
  destruct (map_to_list _) as [|kd' [|? ?]]; intros [= <- <-]; auto.
Qed.

(** The loop over the items of a patch skips [offer_type] and no other item
    reaches the owner or the tier. *)
Lemma patch_item_tag d i : tag (patch_item d i) = tag d.
Proof. by destruct d, i. Qed.

Lemma foldl_patch_item_tag detail d : tag (foldl patch_item d detail) = tag d.
Proof.
  revert d. induction detail as [|i detail IH]; intros d; simpl; [done|].
  by rewrite IH, patch_item_tag.
Qed.

Lemma patch_detail_Raise pk detail st e st' :
  patch_detail pk detail st = (Raise e, st') → st' = st.
Proof.
  unfold patch_detail, bind, lift, except_DoesNotExist, write.
  destruct (getitem_offer_type detail) as [t|e1]; [|by intros [= <- <-]].
  destruct (details_get pk t st) as [[kd|e1] st1] eqn:Hget; [done|].
  apply details_get_Raise in Hget as [-> _]. by destruct e1; intros [= <- <-].
Qed.

Lemma patch_detail_Ok pk detail st st' :
  patch_detail pk detail st = (Ok (), st') →
  ∃ k d, OfferDetail_objects st !! k = Some d
         ∧ st' = with_details (insert k (foldl patch_item d detail)) st.
Proof.
  unfold patch_detail, bind, lift, except_DoesNotExist, write.
  destruct (getitem_offer_type detail) as [t|e1]; [|done].
  destruct (details_get pk t st) as [[[k d]|e1] st1] eqn:Hget; [|by destruct e1].
  apply details_get_Ok in Hget as (-> & Hk & _). intros [= <-]. by exists k, d.
Qed.

Lemma patch_detail_tags pk detail st r st' :
  patch_detail pk detail st = (r, st') → keeps_tags st st'.
Proof.
  destruct r as [[]|e].
  - intros (k & d & Hk & ->)%patch_detail_Ok. unfold keeps_tags. simpl.
    rewrite fmap_insert, foldl_patch_item_tag. apply insert_id.
    by rewrite lookup_fmap, Hk.
  - by intros ->%patch_detail_Raise.
Qed.

Lemma patch_detail_offers pk detail st r st' :
  patch_detail pk detail st = (r, st') → Offer_objects st' = Offer_objects st.
Proof.
  destruct r as [[]|e].
  - by intros (k & d & _ & ->)%patch_detail_Ok.
  - by intros ->%patch_detail_Raise.
Qed.

Lemma for_each_patch_detail_tags pk l st r st' :
  for_each l (patch_detail pk) st = (r, st') → keeps_tags st st'.
Proof.
  apply (for_each_invariant _ keeps_tags); unfold keeps_tags.
  - done.
  - congruence.
  - intros x st1 r1 st2. apply patch_detail_tags.
Qed.

Lemma for_each_patch_detail_offers pk l st r st' :
  for_each l (patch_detail pk) st = (r, st') → Offer_objects st' = Offer_objects st.
Proof.
  apply (for_each_invariant _ (λ st st', Offer_objects st' = Offer_objects st)).
  - done.
  - congruence.
  - intros x st1 r1 st2. apply patch_detail_offers.
Qed.

Lemma update_tags pk instance a st r st' :
  update pk instance a st = (r, st') → keeps_tags st st'.
Proof.
  unfold update, bind, write.
  destruct (not_ (details a)); [by intros [= <- <-]|].
  destruct (for_each _ _ _) as [[[]|e] st1] eqn:Hloop; intros [= <- <-];
    by apply for_each_patch_detail_tags in Hloop.
Qed.

Lemma handle_update_tags pk instance a st r st' :
  handle_update pk instance a st = (r, st') → keeps_tags st st'.
Proof.
  unfold handle_update, bind, lift.
  destruct (validate _ a) as [a'|e]; [apply update_tags|by intros [= <- <-]].
Qed.

Lemma child_types_tags pk st :
  child_types pk st
  = (λ kt, kt.2.2) <$> map_to_list (filter (λ kt, kt.2.1 = pk) (tag <$> OfferDetail_objects st)).
Proof.
  unfold child_types. rewrite map_filter_fmap, map_to_list_fmap, <- list_fmap_compose.
  assert (filter (λ '(i, x), (i, tag x).2.1 = pk) (OfferDetail_objects st)
          = filter (λ kd, OfferDetail.offer kd.2 = pk) (OfferDetail_objects st)) as ->.
  { by apply map_filter_ext. }
  apply list_fmap_ext. by intros ? [? ?].
Qed.

Lemma keeps_tags_same_children st st' : keeps_tags st st' → same_children st st'.
Proof.
  unfold keeps_tags. intros Hu.
  assert (Hk : ∀ k, tag <$> OfferDetail_objects st' !! k = tag <$> OfferDetail_objects st !! k).
  { intros k. by rewrite <- !lookup_fmap, Hu. }
  split; [|split; [|split]].
  - intros offer. by rewrite !child_types_tags, Hu.
  - by rewrite <- (dom_fmap_L tag), Hu, dom_fmap_L.
  - intros k. specialize (Hk k).
    destruct (OfferDetail_objects st' !! k), (OfferDetail_objects st !! k);
      unfold tag in *; simpl in *; congruence.
  - intros k. specialize (Hk k).
    destruct (OfferDetail_objects st' !! k), (OfferDetail_objects st !! k);
      unfold tag in *; simpl in *; congruence.
Qed.

(** C2. Whatever the scalar fields and the detail patches, and whether the
    update succeeds or raises, the store after [update] has the same detail
    rows as before, each with the [offer_type] and the owner it had: the
    [offer_type] values of the Offer's children are the same list.  A patch
    item that supplies [offer_type] leaves the row as it is.  The same holds
    for a whole update request. *)
Theorem C2_update_keeps_child_types pk instance data st :
  same_children st (update pk instance data st).2
  ∧ same_children st (handle_update pk instance data st).2
  ∧ ∀ d v, patch_item d (OfferType v) = d.
Proof.
  split; [|split].
  - destruct (update pk instance data st) as [r st'] eqn:Hu.
    by eapply keeps_tags_same_children, update_tags.
  - destruct (handle_update pk instance data st) as [r st'] eqn:Hu.
    by eapply keeps_tags_same_children, handle_update_tags.
  - done.
Qed.

(** ** Offer update: no transaction *)

(** C3, as stated, fails.  The Offer of [Example.st] has no [basic] child,
    as in the specification's scenario for DetailNotFound; the update of
    [Example.retitle_and_patch] passes validation and raises at the patch
    for [basic], after the new title and the new [standard] price have been
    saved. *)
Lemma C3_update_is_not_atomic :
  handle_update 1 Example.logo Example.retitle_and_patch Example.st
  = (Raise (DetailNotFound "basic"), Example.st_half_written)
  ∧ Offer.title <$> Offer_objects Example.st !! 1 = Some "Logo"%string
  ∧ Offer.title <$> Offer_objects Example.st_half_written !! 1
    = Some "Logo design"%string
  ∧ OfferDetail.price <$> OfferDetail_objects Example.st !! 10 = Some 100
  ∧ OfferDetail.price <$> OfferDetail_objects Example.st_half_written !! 10 = Some 50.
Proof. by vm_compute. Qed.

(** C3, amended.  A request that fails validation writes nothing.  Once
    validation has passed, [update] saves the merged scalar fields and then
    applies the detail patches in order, saving each child: when it returns,
    all of them are applied; when it raises, the scalar fields and the
    patches before the failing one stay written, and the failing patch and
    those after it have written nothing. *)
Theorem C3_update_keeps_writes_before_failure pk instance data st r st' :
  handle_update pk instance data st = (r, st') →
  let st1 := with_offers (insert pk (merge instance data)) st in
  match r with
  | Ok offer =>
      offer = (pk, merge instance data)
      ∧ for_each (default [] (details data)) (patch_detail pk) st1 = (Ok (), st')
  | Raise e =>
      (validate (Some (pk, instance)) data = Raise e ∧ st' = st)
      ∨ (validate (Some (pk, instance)) data = Ok data
         ∧ Offer_objects st' !! pk = Some (merge instance data)
         ∧ ∃ done p rest,
             details data = Some (done ++ p :: rest)
             ∧ for_each done (patch_detail pk) st1 = (Ok (), st')
             ∧ patch_detail pk p st' = (Raise e, st'))
  end.
Proof.
  unfold handle_update, bind at 1, lift.
  destruct (validate _ data) as [a|e] eqn:Hv; [|intros [= <- <-]; by left].
  apply validate_Ok_id in Hv as Ha. subst a.
  unfold update, bind at 1, write. unfold bind at 1.
  destruct (details data) as [[|d ds]|] eqn:Hd; simpl;
    [by intros [= <- <-]| |by intros [= <- <-]].
  destruct (bind _ _ _) as [[[]|e] st2] eqn:Hloop; intros [= <- <-]; [done|].
  right. split; [done|].
  change (for_each (d :: ds) (patch_detail pk)
            (with_offers (insert pk (merge instance data)) st) = (Raise e, st2))
    in Hloop.
  split.
  - apply for_each_patch_detail_offers in Hloop as ->. apply lookup_insert_eq.
  - apply for_each_Raise_split in Hloop as (done & p & rest & st3 & Hl & Hdone & Hp).
    apply patch_detail_Raise in Hp as Heq. subst st3.
    exists done, p, rest. by rewrite Hl.
Qed.

Lemma C3_witness :
  handle_update 1 Example.logo Example.retitle_and_patch Example.st
  = (Raise (DetailNotFound "basic"), Example.st_half_written)
  ∧ ((validate (Some (1, Example.logo)) Example.retitle_and_patch
      = Raise (DetailNotFound "basic")
      ∧ Example.st_half_written = Example.st)
     ∨ (validate (Some (1, Example.logo)) Example.retitle_and_patch
        = Ok Example.retitle_and_patch
        ∧ Offer_objects Example.st_half_written !! 1
          = Some (merge Example.logo Example.retitle_and_patch)
        ∧ ∃ done p rest,
            details Example.retitle_and_patch = Some (done ++ p :: rest)
            ∧ for_each done (patch_detail 1)
                (with_offers (insert 1 (merge Example.logo Example.retitle_and_patch))
                             Example.st)
              = (Ok (), Example.st_half_written)
            ∧ patch_detail 1 p Example.st_half_written
              = (Raise (DetailNotFound "basic"), Example.st_half_written))).
Proof.
  assert (H : handle_update 1 Example.logo Example.retitle_and_patch Example.st
              = (Raise (DetailNotFound "basic"), Example.st_half_written)).
  { vm_compute. reflexivity. }
  split; [exact H|].
  exact (C3_update_keeps_writes_before_failure
           1 Example.logo Example.retitle_and_patch Example.st _ _ H).
Defined.

(** ** Offer update: a patch for a missing child *)

(** The rows [details_get] selects are the children with that type. *)
Lemma elem_of_details_filter pk t st (kd : Z * OfferDetail.t) :
  kd ∈ map_to_list (filter (λ kd, OfferDetail.offer kd.2 = pk
                                  ∧ OfferDetail.offer_type kd.2 = t)
                           (OfferDetail_objects st))
  ↔ kd ∈ map_to_list (filter (λ kd, OfferDetail.offer kd.2 = pk) (OfferDetail_objects st))
    ∧ OfferDetail.offer_type kd.2 = t.
Proof.
  destruct kd as [k d]. rewrite !elem_of_map_to_list, !map_lookup_filter_Some. tauto.
Qed.

Lemma NoDup_fmap_eq {T U} (f : T → U) (l : list T) x y :
  NoDup (f <$> l) → x ∈ l → y ∈ l → f x = f y → x = y.
Proof.
  induction l as [|z l IH]; simpl; [by intros _ ?%elem_of_nil|].
  intros [Hz Hnd]%NoDup_cons [->|Hx]%elem_of_cons [->|Hy]%elem_of_cons Hf; auto.
  - exfalso. apply Hz. rewrite Hf. by apply list_elem_of_fmap_2.
  - exfalso. apply Hz. rewrite <- Hf. by apply list_elem_of_fmap_2.
Qed.

Lemma details_get_missing pk t st :
  t ∉ child_types pk st → details_get pk t st = (Raise DoesNotExist, st).
Proof.
  intros Ht. unfold details_get.
  destruct (map_to_list _) as [|kd l] eqn:Hl; [done|]. exfalso. apply Ht.
  assert (Hin : kd ∈ kd :: l) by left. rewrite <- Hl in Hin.
  apply elem_of_details_filter in Hin as [Hin <-].
  unfold child_types. by apply (list_elem_of_fmap_2 (λ kd, OfferDetail.offer_type kd.2)).
Qed.

Lemma details_get_present pk t st :
  t ∈ child_types pk st → NoDup (child_types pk st) →
  ∃ kd, details_get pk t st = (Ok kd, st).
Proof.
  intros Ht Hnd. unfold details_get.
  destruct (map_to_list _) as [|kd1 [|kd2 l]] eqn:Hl.
  - exfalso. unfold child_types in Ht.
    apply list_elem_of_fmap in Ht as (kd & -> & Hkd).
    assert (Hin : kd ∈ @nil (Z * OfferDetail.t)); [|by apply elem_of_nil in Hin].
    rewrite <- Hl. by apply elem_of_details_filter.
  - by eexists.
  - exfalso.
    pose proof (NoDup_map_to_list
                  (filter (λ kd, OfferDetail.offer kd.2 = pk
                                 ∧ OfferDetail.offer_type kd.2 = t)
                          (OfferDetail_objects st))) as Hnd2.
    assert (H1 : kd1 ∈ kd1 :: kd2 :: l) by left.
    assert (H2 : kd2 ∈ kd1 :: kd2 :: l) by (right; left).
    rewrite Hl in Hnd2. rewrite <- Hl in H1, H2.
    apply elem_of_details_filter in H1 as [H1 Ht1], H2 as [H2 Ht2].
    assert (kd1 = kd2) as ->.
    { eapply (NoDup_fmap_eq (λ kd, OfferDetail.offer_type kd.2));
        [exact Hnd|done..|congruence]. }
    apply NoDup_cons in Hnd2 as [Hnot _]. apply Hnot. left.
Qed.

Lemma patch_detail_missing pk detail t st :
  get_offer_type detail = Some t → t ∉ child_types pk st →
  patch_detail pk detail st = (Raise (DetailNotFound t), st).
Proof.
  intros Hg Ht. unfold patch_detail, bind, lift, except_DoesNotExist, getitem_offer_type.
  rewrite Hg. by rewrite details_get_missing.
Qed.

Lemma patch_detail_present pk detail t st :
  get_offer_type detail = Some t → t ∈ child_types pk st → NoDup (child_types pk st) →
  ∃ st', patch_detail pk detail st = (Ok (), st').
Proof.
  intros Hg Ht Hnd. unfold patch_detail, bind, lift, except_DoesNotExist, getitem_offer_type.
  rewrite Hg. destruct (details_get_present pk t st Ht Hnd) as [kd ->].
  unfold write. by eexists.
Qed.

(** The loop stops at the first patch whose type has no child. *)
Lemma for_each_patch_detail_missing pk l t st :
  NoDup (child_types pk st) →
  (∀ d, d ∈ l → is_Some (get_offer_type d)) →
  (∃ p, p ∈ l ∧ get_offer_type p = Some t ∧ (t ∉ child_types pk st)) →
  ∃ t' st',
    for_each l (patch_detail pk) st = (Raise (DetailNotFound t'), st')
    ∧ (t' ∉ child_types pk st)
    ∧ ∃ p', p' ∈ l ∧ get_offer_type p' = Some t'.
Proof.
  revert st. induction l as [|d l IH]; intros st Hnd Hall (p & Hp & Hpt & Ht).
  { by apply elem_of_nil in Hp. }
  destruct (Hall d) as [td Htd]; [left|].
  destruct (decide (td ∈ child_types pk st)) as [Hin|Hnin].
  - destruct (patch_detail_present pk d td st Htd Hin Hnd) as [st1 H1].
    assert (Hsame : child_types pk st1 = child_types pk st).
    { apply patch_detail_tags in H1. unfold keeps_tags in H1.
      by rewrite !child_types_tags, H1. }
    destruct (IH st1) as (t' & st' & Hloop & Ht' & p' & Hp' & Hpt').
    + by rewrite Hsame.
    + intros d' Hd'. apply Hall. by right.
    + exists p. rewrite Hsame. split; [|done].
      apply elem_of_cons in Hp as [->|Hp]; [|done]. congruence.
    + exists t', st'. simpl. unfold bind. rewrite H1, Hloop.
      split; [done|]. split; [by rewrite <- Hsame|].
      exists p'. split; [by right|done].
  - exists td, st. simpl. unfold bind. rewrite (patch_detail_missing pk d td st Htd Hnin).
    split; [done|]. split; [done|]. exists d. split; [left|done].
Qed.

Lemma validate_update_offer_types pk instance a d :
  validate (Some (pk, instance)) a = Ok a →
  d ∈ default [] (details a) → is_Some (get_offer_type d).
Proof.
  unfold validate. destruct (details a) as [[|d1 ds]|]; simpl; try by intros _ ?%elem_of_nil.
  case_bool_decide as Hmiss; simpl; [|done]. intros _ Hd.
  destruct (get_offer_type d) eqn:Hg; [by eexists|]. exfalso.
  assert (Hin : d ∈ filter (λ d, get_offer_type d = None) (d1 :: ds)).
  { by apply list_elem_of_filter. }
  rewrite Hmiss in Hin. by apply elem_of_nil in Hin.
Qed.

(** C7, as stated, fails: the error raised for the missing [basic] child is a
    [ValidationError], the kind of every other validation failure, and not a
    not-found error. *)
Lemma C7_missing_child_is_not_a_not_found_error :
  ∃ e,
    handle_update 1 Example.logo Example.patch_basic Example.st = (Raise e, Example.st)
    ∧ e = ValidationError (NonField "Detail with offer_type 'basic' does not exist.")
    ∧ kind_of e = KValidationError
    ∧ kind_of e ≠ KNotFoundError.
Proof. eexists. split; [by vm_compute|]. by vm_compute. Qed.

(** The loop raises for the first patch whose type has no child: the
    patches before it are applied, and every one of them names a child. *)
Lemma for_each_patch_detail_first_missing pk l st :
  NoDup (child_types pk st) →
  (∀ d, d ∈ l → is_Some (get_offer_type d)) →
  (∃ p t, p ∈ l ∧ get_offer_type p = Some t ∧ (t ∉ child_types pk st)) →
  ∃ before p after t st',
    l = before ++ p :: after
    ∧ (∀ d, d ∈ before → ∃ td, get_offer_type d = Some td ∧ td ∈ child_types pk st)
    ∧ get_offer_type p = Some t
    ∧ (t ∉ child_types pk st)
    ∧ for_each l (patch_detail pk) st = (Raise (DetailNotFound t), st').
Proof.
  revert st. induction l as [|d l IH]; intros st Hnd Hall (p & t & Hp & Hpt & Ht).
  { by apply elem_of_nil in Hp. }
  destruct (Hall d) as [td Htd]; [left|].
  destruct (decide (td ∈ child_types pk st)) as [Hin|Hnin].
  - destruct (patch_detail_present pk d td st Htd Hin Hnd) as [st1 H1].
    assert (Hsame : child_types pk st1 = child_types pk st).
    { apply patch_detail_tags in H1. unfold keeps_tags in H1.
      by rewrite !child_types_tags, H1. }
    destruct (IH st1) as (before & p' & after & t' & st' & -> & Hbefore & Hpt' & Ht' & Hloop).
    + by rewrite Hsame.
    + intros d' Hd'. apply Hall. by right.
    + exists p, t. rewrite Hsame. split; [|done].
      apply elem_of_cons in Hp as [->|Hp]; [|done]. congruence.
    + exists (d :: before), p', after, t', st'. split; [done|]. split.
      { intros d' [->|Hd']%elem_of_cons; [by exists td|].
        rewrite <- Hsame. by apply Hbefore. }
      split; [done|]. split; [by rewrite <- Hsame|].
      simpl. unfold bind. by rewrite H1, Hloop.
  - exists [], d, l, td, st. split; [done|]. split; [by intros d' ?%elem_of_nil|].
    split; [done|]. split; [done|].
    simpl. unfold bind. by rewrite (patch_detail_missing pk d td st Htd Hnin).
Qed.

(** C7, amended.  When the children of the Offer have distinct types and a
    validated update holds a patch whose [offer_type] matches no child, the
    update fails with a [ValidationError] (the not-found lookup is caught
    and raised again as a validation error) whose message names the
    [offer_type] of the first such patch: every patch before that one names
    a child of the Offer. *)
Theorem C7_missing_child_is_a_validation_error pk instance data st :
  validate (Some (pk, instance)) data = Ok data →
  NoDup (child_types pk st) →
  (∃ p t, p ∈ default [] (details data) ∧ get_offer_type p = Some t
          ∧ (t ∉ child_types pk st)) →
  ∃ before p after t st',
    details data = Some (before ++ p :: after)
    ∧ (∀ d, d ∈ before → ∃ td, get_offer_type d = Some td ∧ td ∈ child_types pk st)
    ∧ get_offer_type p = Some t
    ∧ (t ∉ child_types pk st)
    ∧ handle_update pk instance data st
      = (Raise (ValidationError
                  (NonField ("Detail with offer_type '" +:+ t +:+ "' does not exist."))),
         st')
    ∧ kind_of (DetailNotFound t) = KValidationError.
Proof.
  intros Hv Hnd Hex.
  destruct (for_each_patch_detail_first_missing pk (default [] (details data))
              (with_offers (insert pk (merge instance data)) st))
    as (before & p & after & t & st' & Hl & Hbefore & Hpt & Ht & Hloop); [done| |done|].
  { intros d. by eapply validate_update_offer_types. }
  exists before, p, after, t, st'.
  destruct (details data) as [ds|] eqn:Hds; simpl in Hl; [|by destruct before].
  subst ds. split; [done|]. split; [done|]. split; [done|]. split; [done|].
  split; [|done].
  unfold handle_update, bind at 1, lift. rewrite Hv.
  unfold update, bind, write. rewrite Hds.
  destruct before; simpl in *; by rewrite Hloop.
Qed.

Lemma C7_witness :
  validate (Some (1, Example.logo)) Example.retitle_and_patch = Ok Example.retitle_and_patch
  ∧ NoDup (child_types 1 Example.st)
  ∧ ∃ before p after t st',
      details Example.retitle_and_patch = Some (before ++ p :: after)
      ∧ (∀ d, d ∈ before →
              ∃ td, get_offer_type d = Some td ∧ td ∈ child_types 1 Example.st)
      ∧ get_offer_type p = Some t
      ∧ (t ∉ child_types 1 Example.st)
      ∧ handle_update 1 Example.logo Example.retitle_and_patch Example.st
        = (Raise (ValidationError
                    (NonField ("Detail with offer_type '" +:+ t +:+ "' does not exist."))),
           st')
      ∧ kind_of (DetailNotFound t) = KValidationError.
Proof.
  assert (Hv : validate (Some (1, Example.logo)) Example.retitle_and_patch
               = Ok Example.retitle_and_patch).
  { vm_compute. reflexivity. }
  assert (Hnd : NoDup (child_types 1 Example.st)).
  { apply (bool_decide_unpack _). vm_compute. exact I. }
  assert (Hex : ∃ p t, p ∈ default [] (details Example.retitle_and_patch)
                       ∧ get_offer_type p = Some t
                       ∧ (t ∉ child_types 1 Example.st)).
  { exists [OfferType "basic"; Price 50], "basic"%string.
    split; [right; left|]. split; [reflexivity|].
    apply (bool_decide_unpack _). vm_compute. exact I. }
  split; [exact Hv|]. split; [exact Hnd|].
  exact (C7_missing_child_is_a_validation_error
           1 Example.logo Example.retitle_and_patch Example.st Hv Hnd Hex).
Defined.

(** ** Orders *)

(** What [validate] does with the dict it is given: any key other than
    [status] is refused, and so is the empty dict. *)
Lemma status_validate_forbidden attrs :
  (∃ k, k ∈ dict_keys attrs ∧ k ≠ "status"%string) →
  ∃ forbidden,
    OrderStatusUpdateSerializer.validate attrs
    = Raise (OrderStatusUpdateSerializer.ForbiddenFields forbidden)
    ∧ ∀ k, k ∈ forbidden ↔ k ∈ dict_keys attrs ∧ k ≠ "status"%string.
Proof.
  intros (k & Hk & Hne). unfold OrderStatusUpdateSerializer.validate.
  destruct (filter _ _) as [|k1 l] eqn:Hf.
  - exfalso. assert (Hin : k ∈ filter (λ k, k ∉ ["status"%string]) (dict_keys attrs)).
    { apply list_elem_of_filter. split; [|done]. by intros ->%list_elem_of_singleton. }
    rewrite Hf in Hin. by apply elem_of_nil in Hin.
  - eexists. split; [done|]. intros k'. rewrite <- Hf, list_elem_of_filter.
    rewrite list_elem_of_singleton. tauto.
Qed.

Lemma status_validate_empty :
  OrderStatusUpdateSerializer.validate [] = Raise OrderStatusUpdateSerializer.EmptyUpdate.
Proof. done. Qed.

(** But [validate] is given the validated data, and nothing except [status]
    gets there. *)
Lemma status_to_internal_value_keys partial data attrs :
  OrderStatusUpdateSerializer.to_internal_value partial data = Ok attrs →
  attrs = [] ∨ ∃ s, attrs = [("status"%string, VStr s)] ∧ s ∈ Order.STATUS_CHOICES.
Proof.
  unfold OrderStatusUpdateSerializer.to_internal_value, serializers.ChoiceField,
    serializers.validate_empty_values.
  destruct (dict_get data "status") as [[]|]; simpl; try (by destruct partial); try done.
  - case_bool_decide; simpl; [|done]. intros [= <-]. right. by eexists.
  - destruct partial; simpl; [|done]. intros [= <-]. by left.
Qed.

(** A request body that passes run_validation leaves the one item [status]. *)
Lemma status_to_internal_value_keys' partial data attrs :
  OrderStatusUpdateSerializer.run_validation partial data = Ok attrs →
  ∃ s, attrs = [("status"%string, VStr s)].
Proof.
  unfold OrderStatusUpdateSerializer.run_validation.
  destruct (OrderStatusUpdateSerializer.to_internal_value partial data) as [a|e] eqn:Hv;
    [|done].
  apply status_to_internal_value_keys in Hv as [->|(s & -> & _)]; [done|].
  intros H. exists s. revert H. by vm_compute; intros [= <-].
Qed.

(** A request body with a valid [status] passes whatever else it holds. *)
Lemma status_run_validation_ignores_other_keys partial data s :
  dict_get data "status" = Some (VStr s) → s ∈ Order.STATUS_CHOICES →
  OrderStatusUpdateSerializer.run_validation partial data = Ok [("status"%string, VStr s)].
Proof.
  intros Hs Hin.
  unfold OrderStatusUpdateSerializer.run_validation,
    OrderStatusUpdateSerializer.to_internal_value, serializers.ChoiceField,
    serializers.validate_empty_values.
  rewrite Hs. by rewrite bool_decide_eq_true_2.
Qed.

(** No request body is refused for a forbidden field. *)
Lemma status_run_validation_never_forbidden partial data forbidden :
  OrderStatusUpdateSerializer.run_validation partial data
  ≠ Raise (OrderStatusUpdateSerializer.ForbiddenFields forbidden).
Proof.
  unfold OrderStatusUpdateSerializer.run_validation.
  destruct (OrderStatusUpdateSerializer.to_internal_value partial data) as [attrs|e] eqn:Hv.
  - by apply status_to_internal_value_keys in Hv as [->|(s & -> & _)].
  - revert Hv. unfold OrderStatusUpdateSerializer.to_internal_value, serializers.collect.
    destruct (serializers.error_of _ _); [done|]. by intros [= <-].
Qed.

(** C5 on the code: [validate] would refuse a dict with the key [price], but
    the request body [{status: completed, price: 10}] reaches it as
    [{status: completed}], passes, and the status is written; the body
    [{price: 10}] is refused as empty, not for its forbidden field; the empty
    body is refused as empty. *)
Lemma C5_other_key_is_not_rejected :
  OrderStatusUpdateSerializer.validate Example.status_and_price
  = Raise (OrderStatusUpdateSerializer.ForbiddenFields ["price"%string])
  ∧ OrderStatusUpdateSerializer.to_internal_value true Example.status_and_price
    = Ok [("status"%string, VStr "completed")]
  ∧ OrderStatusUpdateSerializer.handle_update true 20 Example.order
      Example.status_and_price Example.st
    = (Ok (20, Example.completed), with_orders (insert 20 Example.completed) Example.st)
  ∧ OrderStatusUpdateSerializer.handle_update true 20 Example.order
      Example.price_only Example.st
    = (Raise OrderStatusUpdateSerializer.EmptyUpdate, Example.st)
  ∧ OrderStatusUpdateSerializer.handle_update true 20 Example.order [] Example.st
    = (Raise OrderStatusUpdateSerializer.EmptyUpdate, Example.st).
Proof. by vm_compute. Qed.

(** ** The fields of a Review *)

Lemma dict_get_None (d : dict) k : k ∉ dict_keys d → dict_get d k = None.
Proof.
  induction d as [|[k' v] d IH]; [done|]. simpl. intros Hk.
  apply not_elem_of_cons in Hk as [Hne Hk].
  destruct (String.eqb_spec k' k) as [->|_]; [done|]. by apply IH.
Qed.

Section fields.
Import serializers.
Context `{Python}.

Lemma collect_Ok {A} errors (ret a : A) :
  collect errors ret = Ok a → errors = [] ∧ a = ret.
Proof. destruct errors; [by intros [= <-]|done]. Qed.


Lemma collect_elem_of {A} errors (ret : A) x :
  x ∈ errors → collect errors ret = Raise (ValidationError (ByField errors)).
Proof. destruct errors; [by intros ?%elem_of_nil|done]. Qed.

Lemma error_of_nil {A} name (o : outcome A) :
  error_of name o = [] → o = Skip ∨ ∃ a, o = Value a.
Proof. destruct o; [right; by eexists|by left|done]. Qed.

Lemma IntegerField_to_internal_value_Skip v : IntegerField_to_internal_value v ≠ Skip.
Proof. unfold IntegerField_to_internal_value. by repeat case_match. Qed.

Lemma IntegerField_Value lo hi partial data z :
  IntegerField (Some lo) (Some hi) partial data = Value z → lo ≤ z ≤ hi.
Proof.
  unfold IntegerField, validate_empty_values.
  destruct data as [v|]; [|by destruct partial].
  destruct v as [|b|zi|f|s| |]; try done;
    (destruct (IntegerField_to_internal_value _) as [z0| |c]; simpl; try done;
     repeat case_bool_decide; try done; intros [= <-]; lia).
Qed.

Lemma IntegerField_Skip lo hi partial data :
  IntegerField lo hi partial data = Skip → partial = true ∧ data = None.
Proof.
  unfold IntegerField, validate_empty_values.
  destruct data as [v|]; [|by destruct partial].
  destruct v as [|b|zi|f|s| |]; try done;
    (destruct (IntegerField_to_internal_value _) as [z0| |c] eqn:Hto; simpl;
     first [by apply IntegerField_to_internal_value_Skip in Hto
           |repeat case_match; done]).
Qed.

(** A value that converts to an integer outside the bounds fails one of the
    two bound validators. *)
Lemma IntegerField_out_of_range lo hi partial v z :
  IntegerField_to_internal_value v = Value z → ¬ (lo ≤ z ≤ hi) →
  IntegerField (Some lo) (Some hi) partial (Some v) = Fail code.min_value
  ∨ IntegerField (Some lo) (Some hi) partial (Some v) = Fail code.max_value.
Proof.
  intros Hv Hz. unfold IntegerField, validate_empty_values.
  destruct v; try done; rewrite Hv; simpl; repeat case_bool_decide; auto; lia.
Qed.

Lemma IntegerField_VInt lo hi partial z z' :
  IntegerField lo hi partial (Some (VInt z)) = Value z' → z' = z.
Proof.
  unfold IntegerField, validate_empty_values. simpl. repeat case_match; congruence.
Qed.

Lemma CharField_Value partial data s :
  CharField partial data = Value s → s ≠ ""%string.
Proof.
  unfold CharField, validate_empty_values.
  destruct data as [v|]; [|by destruct partial].
  destruct v as [|b|z0|f|s0| |]; simpl; try done;
    try (case_bool_decide; [done|]; destruct (has_nul _); [done|]; by intros [= <-]).
  destruct s0; [done|]. simpl.
  case_bool_decide; [done|]. destruct (has_nul _); [done|]. by intros [= <-].
Qed.

Lemma CharField_Skip partial data :
  CharField partial data = Skip → partial = true ∧ data = None.
Proof.
  unfold CharField, validate_empty_values.
  destruct data as [v|]; [|by destruct partial].
  destruct v as [|b|z0|f|s0| |]; simpl; try done;
    try (case_bool_decide; [done|]; by destruct (has_nul _)).
  destruct s0; [done|]. simpl. case_bool_decide; [done|]. by destruct (has_nul _).
Qed.

(** The empty string, and a string of white space only, is blank. *)
Lemma CharField_blank partial s :
  s = ""%string ∨ str_strip s = ""%string →
  CharField partial (Some (VStr s)) = Fail code.blank.
Proof.
  intros Hs. unfold CharField. destruct s; [done|]. simpl.
  destruct Hs as [?|Hs]; [done|]. by rewrite bool_decide_eq_true_2.
Qed.

Lemma CharField_VStr partial s s' :
  CharField partial (Some (VStr s)) = Value s' → s' = str_strip s.
Proof.
  unfold CharField. destruct s; [done|]. simpl.
  case_bool_decide; [done|]. destruct (has_nul _); congruence.
Qed.

Lemma PrimaryKeyRelatedField_Value {A} (queryset : gmap Z A) partial data pk obj :
  PrimaryKeyRelatedField queryset partial data = Value (pk, obj) →
  queryset !! pk = Some obj
  ∧ ∀ z, data = Some (VInt z) → z = pk.
Proof.
  unfold PrimaryKeyRelatedField, validate_empty_values.
  destruct data as [v|]; [|by destruct partial].
  destruct v as [|b|z0|f|s| |]; simpl; try done.
  - destruct (queryset !! z0) as [obj'|] eqn:Hq; [|done].
    intros [= <- <-]. split; [done|]. by intros z [= <-].
  - destruct (queryset !! float_int f) as [obj'|] eqn:Hq; [|done].
    intros [= <- <-]. by split.
  - destruct s as [|a s]; [done|].
    destruct (str_int (String a s)) as [z|]; [|done].
    destruct (queryset !! z) as [obj'|] eqn:Hq; [|done].
    intros [= <- <-]. by split.
Qed.

Lemma PrimaryKeyRelatedField_Skip {A} (queryset : gmap Z A) partial data :
  PrimaryKeyRelatedField queryset partial data = Skip → partial = true ∧ data = None.
Proof.
  unfold PrimaryKeyRelatedField, validate_empty_values.
  destruct data as [v|]; [|by destruct partial].
  destruct v as [|b|z0|f|s| |]; simpl; try done.
  - by destruct (queryset !! z0).
  - by destruct (queryset !! float_int f).
  - destruct s as [|a s]; [done|].
    destruct (str_int (String a s)) as [z|]; [|done]. by destruct (queryset !! z).
Qed.
End fields.

(** ** Review creation *)

Lemma Review_exists_true reviewer business_user st :
  ReviewSerializer.Review_exists reviewer business_user st = true
  ↔ ∃ k row, Review_objects st !! k = Some row
             ∧ Review.reviewer row = reviewer
             ∧ Review.business_user row = business_user.
Proof.
  unfold ReviewSerializer.Review_exists. split.
  - destruct (map_to_list _) as [|[k row] l] eqn:Hl; [done|]. intros _.
    assert (Hin : (k, row) ∈ (k, row) :: l) by left. rewrite <- Hl in Hin.
    apply elem_of_map_to_list, map_lookup_filter_Some in Hin as [Hk [Hr Hb]].
    by exists k, row.
  - intros (k & row & Hk & Hr & Hb).
    destruct (map_to_list _) as [|kr l] eqn:Hl; [|done]. exfalso.
    assert (Hin : (k, row) ∈ @nil (Z * Review.t)); [|by apply elem_of_nil in Hin].
    rewrite <- Hl. by apply elem_of_map_to_list, map_lookup_filter_Some.
Qed.

Lemma review_validate_Ok_id user a a' st :
  ReviewSerializer.validate user a st = Ok a' → a' = a.
Proof. unfold ReviewSerializer.validate. repeat case_match; congruence. Qed.

(** C10. With no user in the serializer's context, [validate] accepts any
    target that has a business profile, whatever Reviews the store holds:
    the lookup for an existing Review is not made. *)
Theorem C10_no_user_skips_duplicate_check a st target profile :
  ReviewSerializer.business_user a = Some target →
  User.profile target.2 = Some profile →
  Profile.type profile = "business"%string →
  ReviewSerializer.validate None a st = Ok a.
Proof.
  intros Ha Hp Ht. unfold ReviewSerializer.validate.
  destruct target as [pk u]. simpl in *. by rewrite Ha, Hp, Ht.
Qed.

Lemma C10_witness :
  ReviewSerializer.business_user Example.second_review_attrs = Some (7, Example.business)
  ∧ User.profile Example.business = Some (Profile.mk "business")
  ∧ Review_objects Example.st !! 30 = Some (Review.mk 7 3 4 "Good work")
  ∧ ReviewSerializer.validate (Some 3) Example.second_review_attrs Example.st
    = Raise ReviewSerializer.DuplicateReview
  ∧ ReviewSerializer.validate None Example.second_review_attrs Example.st
    = Ok Example.second_review_attrs.
Proof.
  split; [reflexivity|]. split; [reflexivity|].
  split; [vm_compute; reflexivity|]. split; [vm_compute; reflexivity|].
  exact (C10_no_user_skips_duplicate_check
           Example.second_review_attrs Example.st (7, Example.business)
           (Profile.mk "business") eq_refl eq_refl eq_refl).
Defined.

Section review_create.
Context `{Python}.

Lemma review_run_validation_Ok user data st a :
  ReviewSerializer.run_validation user data st = Ok a →
  ReviewSerializer.to_internal_value false data st = Ok a
  ∧ ReviewSerializer.validate user a st = Ok a.
Proof.
  unfold ReviewSerializer.run_validation.
  destruct (ReviewSerializer.to_internal_value false data st) as [a'|e] eqn:Hv; [|done].
  intros Hval. by apply review_validate_Ok_id in Hval as Ha; subst.
Qed.

Lemma review_handle_create_Raise user reviewer data st e :
  ReviewSerializer.run_validation user data st = Raise e →
  ReviewSerializer.handle_create user reviewer data st = (Raise e, st).
Proof. intros Hv. unfold ReviewSerializer.handle_create, bind, read. by rewrite Hv. Qed.

(** A refused create request writes nothing. *)
Lemma review_handle_create_Raise_inv user reviewer data st e st' :
  ReviewSerializer.handle_create user reviewer data st = (Raise e, st') → st' = st.
Proof.
  unfold ReviewSerializer.handle_create, bind, read.
  by destruct (ReviewSerializer.run_validation user data st); intros [= <-].
Qed.

(** A create request made by its reviewer keeps the pairs unique. *)
Lemma review_handle_create_keeps_pairs_unique reviewer data st r st' :
  unique_pairs st →
  ReviewSerializer.handle_create (Some reviewer) reviewer data st = (r, st') →
  unique_pairs st'.
Proof.
  intros Huniq. unfold ReviewSerializer.handle_create, bind, read.
  destruct (ReviewSerializer.run_validation _ data st) as [a|e] eqn:Hv;
    [|by intros [= <- <-]].
  apply review_run_validation_Ok in Hv as [_ Hval].
  unfold ReviewSerializer.create. intros [= <- <-].
  revert Hval. unfold ReviewSerializer.validate.
  destruct (ReviewSerializer.business_user a) as [[bpk bu]|]; [|done].
  destruct (User.profile bu); [|done]. case_bool_decide; [done|].
  destruct (ReviewSerializer.Review_exists reviewer bpk st) eqn:Hex; [done|]. intros _.
  assert (Hnone : ∀ k row, Review_objects st !! k = Some row →
                    Review.reviewer row = reviewer → Review.business_user row = bpk → False).
  { intros k row Hk Hr Hb.
    assert (ReviewSerializer.Review_exists reviewer bpk st = true); [|congruence].
    apply Review_exists_true. by exists k, row. }
  intros k1 k2 r1 r2 H1 H2 Hr Hb. simpl in H1, H2.
  destruct (decide (next_pk (Review_objects st) = k1)) as [<-|Hk1],
           (decide (next_pk (Review_objects st) = k2)) as [<-|Hk2]; [done|..].
  - exfalso. rewrite lookup_insert_eq in H1. rewrite lookup_insert_ne in H2 by done.
    injection H1 as <-. simpl in *. by eapply Hnone.
  - exfalso. rewrite lookup_insert_eq in H2. rewrite lookup_insert_ne in H1 by done.
    injection H2 as <-. simpl in *. by eapply Hnone.
  - rewrite lookup_insert_ne in H1, H2 by done. by eapply Huniq.
Qed.

(** C6, amended.  A creation request of a reviewer whose fields are valid
    and whose target has a business profile, made when a Review of that
    target by that reviewer exists, fails with the [ValidationError]
    DuplicateReview and writes nothing; and if no two Reviews of the store
    share reviewer and target, none do after a creation request of a
    reviewer, accepted or not. *)
Theorem C6_duplicate_review_is_a_validation_error reviewer data st :
  (∀ a target profile,
      ReviewSerializer.to_internal_value false data st = Ok a →
      ReviewSerializer.business_user a = Some target →
      User.profile target.2 = Some profile →
      Profile.type profile = "business"%string →
      (∃ k row, Review_objects st !! k = Some row
                ∧ Review.reviewer row = reviewer
                ∧ Review.business_user row = target.1) →
      ReviewSerializer.handle_create (Some reviewer) reviewer data st
      = (Raise ReviewSerializer.DuplicateReview, st)
      ∧ kind_of ReviewSerializer.DuplicateReview = KValidationError)
  ∧ (unique_pairs st →
     unique_pairs (ReviewSerializer.handle_create (Some reviewer) reviewer data st).2).
Proof.
  split.
  - intros a [bpk bu] profile Hto Ha Hp Ht Hex. split; [|done].
    apply review_handle_create_Raise. unfold ReviewSerializer.run_validation.
    rewrite Hto. unfold ReviewSerializer.validate. simpl in *. rewrite Ha, Hp, Ht.
    apply Review_exists_true in Hex. by rewrite Hex.
  - intros Huniq.
    destruct (ReviewSerializer.handle_create _ _ _ _) as [r st'] eqn:Hc.
    by eapply review_handle_create_keeps_pairs_unique.
Qed.
End review_create.

Section review_create_examples.
Existing Instance cpython.python.

(** C6, as stated, fails: the second Review of user 7 by user 3 is refused
    with a [ValidationError], the kind of every other validation failure,
    and not with a conflict error. *)
Lemma C6_duplicate_review_is_not_a_conflict_error :
  ∃ e,
    ReviewSerializer.handle_create (Some 3) 3 Example.second_review Example.st
    = (Raise e, Example.st)
    ∧ e = ValidationError (NonField "You have already reviewed this business user.")
    ∧ kind_of e = KValidationError
    ∧ kind_of e ≠ KConflictError.
Proof. eexists. split; [by vm_compute|]. by vm_compute. Qed.

Lemma C6_witness :
  ReviewSerializer.to_internal_value false Example.second_review Example.st
  = Ok Example.second_review_attrs
  ∧ (∃ k row, Review_objects Example.st !! k = Some row
              ∧ Review.reviewer row = 3 ∧ Review.business_user row = 7)
  ∧ ReviewSerializer.handle_create (Some 3) 3 Example.second_review Example.st
    = (Raise ReviewSerializer.DuplicateReview, Example.st)
  ∧ kind_of ReviewSerializer.DuplicateReview = KValidationError.
Proof.
  assert (Hto : ReviewSerializer.to_internal_value false Example.second_review Example.st
                = Ok Example.second_review_attrs).
  { vm_compute. reflexivity. }
  assert (Hex : ∃ k row, Review_objects Example.st !! k = Some row
                         ∧ Review.reviewer row = 3 ∧ Review.business_user row = 7).
  { exists 30, Example.review. split; [vm_compute; reflexivity|]. split; reflexivity. }
  split; [exact Hto|]. split; [exact Hex|].
  exact (proj1 (C6_duplicate_review_is_a_validation_error 3 Example.second_review Example.st)
           Example.second_review_attrs (7, Example.business) (Profile.mk "business")
           Hto eq_refl eq_refl eq_refl Hex).
Defined.
End review_create_examples.

(** ** Review patches *)

Lemma forbidden_nonempty data :
  ReviewPatchSerializer.forbidden data ≠ []
  ↔ "business_user"%string ∈ dict_keys data ∨ "reviewer"%string ∈ dict_keys data.
Proof.
  unfold ReviewPatchSerializer.forbidden. rewrite !filter_cons, filter_nil.
  repeat case_decide; split; try done; tauto.
Qed.


Section review_patch.
Context `{Python}.

(** What the field checks let through: a rating within 1..5, a description
    that is not empty, and no [business_user] unless the body holds the
    key. *)
Lemma patch_to_internal_value_bounds partial data st a :
  ReviewPatchSerializer.to_internal_value partial data st = Ok a →
  (dict_get data "business_user" = None → ReviewSerializer.business_user a = None)
  ∧ (∀ z, ReviewSerializer.rating a = Some z → 1 ≤ z ≤ 5)
  ∧ (∀ s, ReviewSerializer.description a = Some s → s ≠ ""%string).
Proof.
  unfold ReviewPatchSerializer.to_internal_value, ReviewSerializer.to_internal_value.
  intros [_ ->]%collect_Ok. simpl. split; [|split].
  - intros ->. by destruct partial.
  - intros z. destruct (serializers.IntegerField _ _ _ _) eqn:Hf; simpl; try done.
    intros [= <-]. by apply IntegerField_Value in Hf.
  - intros s. destruct (serializers.CharField _ _) eqn:Hf; simpl; try done.
    intros [= <-]. by apply CharField_Value in Hf.
Qed.

Lemma patch_run_validation_Ok partial body st a :
  ReviewPatchSerializer.run_validation partial body st = Ok a →
  ∃ data, body = ReviewPatchSerializer.Dict data
          ∧ ReviewPatchSerializer.to_internal_value partial data st = Ok a
          ∧ ReviewPatchSerializer.forbidden data = [].
Proof.
  unfold ReviewPatchSerializer.run_validation. destruct body as [data| |]; [|done..].
  destruct (ReviewPatchSerializer.to_internal_value partial data st) as [a'|] eqn:Hto;
    [|done].
  unfold ReviewPatchSerializer.validate.
  destruct (ReviewPatchSerializer.forbidden data) eqn:Hf; [|done].
  intros [= <-]. by exists data.
Qed.

Lemma patch_handle_update_Raise partial pk instance body st e :
  ReviewPatchSerializer.run_validation partial body st = Raise e →
  ReviewPatchSerializer.handle_update partial pk instance body st = (Raise e, st).
Proof. intros Hv. unfold ReviewPatchSerializer.handle_update, bind, read. by rewrite Hv. Qed.

(** A refused patch request writes nothing. *)
Lemma patch_handle_update_Raise_inv partial pk instance body st e st' :
  ReviewPatchSerializer.handle_update partial pk instance body st = (Raise e, st') →
  st' = st.
Proof.
  unfold ReviewPatchSerializer.handle_update, bind, read.
  by destruct (ReviewPatchSerializer.run_validation partial body st); intros [= <-].
Qed.


End review_patch.

Section review_patch_examples.
Existing Instance cpython.python.


End review_patch_examples.

(** ** The bounds of a Review *)

Section review_bounds.
Context `{Python}.

Lemma review_create_bounds user reviewer data st r st' :
  ReviewSerializer.handle_create user reviewer data st = (Ok r, st') →
  1 ≤ Review.rating r.2 ≤ 5 ∧ Review.description r.2 ≠ ""%string.
Proof.
  unfold ReviewSerializer.handle_create, bind, read.
  destruct (ReviewSerializer.run_validation user data st) as [a|e] eqn:Hv; [|done].
  apply review_run_validation_Ok in Hv as [Hto _].
  unfold ReviewSerializer.create. intros [= <- _]. simpl.
  revert Hto. unfold ReviewSerializer.to_internal_value.
  intros [Herr ->]%collect_Ok. simpl.
  apply app_eq_nil in Herr as [_ [Hr Hd]%app_eq_nil].
  apply error_of_nil in Hr as [Hr|[z Hr]], Hd as [Hd|[s Hd]];
    try (by apply IntegerField_Skip in Hr as [? _]);
    try (by apply CharField_Skip in Hd as [? _]).
  rewrite Hr, Hd. simpl. split.
  - by apply IntegerField_Value in Hr.
  - by apply CharField_Value in Hd.
Qed.

Lemma review_patch_bounds partial pk instance body st r st' :
  ReviewPatchSerializer.handle_update partial pk instance body st = (Ok r, st') →
  (Review.rating r.2 = Review.rating instance ∨ 1 ≤ Review.rating r.2 ≤ 5)
  ∧ (Review.description r.2 = Review.description instance
     ∨ Review.description r.2 ≠ ""%string).
Proof.
  unfold ReviewPatchSerializer.handle_update, bind, read.
  destruct (ReviewPatchSerializer.run_validation partial body st) as [a|e] eqn:Hv; [|done].
  unfold ReviewPatchSerializer.update, bind, write. intros [= <- _]. simpl.
  apply patch_run_validation_Ok in Hv as (data & _ & Hto & _).
  apply patch_to_internal_value_bounds in Hto as (_ & Hr & Hd).
  split.
  - destruct (ReviewSerializer.rating a) as [z|]; simpl; auto.
  - destruct (ReviewSerializer.description a) as [s|]; simpl; auto.
Qed.

Lemma review_rating_rejected user reviewer partial pk instance data st v z :
  dict_get data "rating" = Some v →
  serializers.IntegerField_to_internal_value v = serializers.Value z →
  ¬ (1 ≤ z ≤ 5) →
  (∃ e, RatingOutOfRange e
        ∧ ReviewSerializer.handle_create user reviewer data st = (Raise e, st))
  ∧ (∃ e, RatingOutOfRange e
          ∧ ReviewPatchSerializer.handle_update partial pk instance
              (ReviewPatchSerializer.Dict data) st
            = (Raise e, st)).
Proof.
  intros Hv Hz Hout.
  assert (Hcode : ∀ partial, ∃ c,
            (c = code.min_value ∨ c = code.max_value)
            ∧ serializers.IntegerField (Some 1) (Some 5) partial (Some v)
              = serializers.Fail c).
  { intros p. destruct (IntegerField_out_of_range 1 5 p v z Hz Hout) as [Hc|Hc];
      eexists; (split; [|exact Hc]); auto. }
  split.
  - destruct (Hcode false) as (c & Hc & Hf).
    eexists. split; [|apply review_handle_create_Raise].
    2:{ unfold ReviewSerializer.run_validation, ReviewSerializer.to_internal_value.
        rewrite Hv, Hf. erewrite (collect_elem_of _ _ ("rating"%string, Code c)); [done|].
        apply elem_of_app. right. apply elem_of_app. left. simpl. left. }
    eexists. split; [done|].
    destruct Hc as [-> | ->]; [left|right];
      (apply elem_of_app; right; apply elem_of_app; left; simpl; left).
  - destruct (Hcode partial) as (c & Hc & Hf).
    eexists. split; [|apply patch_handle_update_Raise].
    2:{ unfold ReviewPatchSerializer.run_validation, ReviewPatchSerializer.to_internal_value,
          ReviewSerializer.to_internal_value.
        rewrite Hv, Hf. erewrite (collect_elem_of _ _ ("rating"%string, Code c)); [done|].
        apply elem_of_app. right. apply elem_of_app. left. simpl. left. }
    eexists. split; [done|].
    destruct Hc as [-> | ->]; [left|right];
      (apply elem_of_app; right; apply elem_of_app; left; simpl; left).
Qed.

Lemma review_description_rejected user reviewer partial pk instance data st s :
  dict_get data "description" = Some (VStr s) →
  s = ""%string ∨ str_strip s = ""%string →
  (∃ e, EmptyDescription e
        ∧ ReviewSerializer.handle_create user reviewer data st = (Raise e, st))
  ∧ (∃ e, EmptyDescription e
          ∧ ReviewPatchSerializer.handle_update partial pk instance
              (ReviewPatchSerializer.Dict data) st
            = (Raise e, st)).
Proof.
  intros Hv Hs. split.
  - eexists. split; [|apply review_handle_create_Raise].
    2:{ unfold ReviewSerializer.run_validation, ReviewSerializer.to_internal_value.
        rewrite Hv, (CharField_blank _ _ Hs).
        erewrite (collect_elem_of _ _ ("description"%string, Code code.blank)); [done|].
        apply elem_of_app. right. apply elem_of_app. right. simpl. left. }
    eexists. split; [done|].
    apply elem_of_app. right. apply elem_of_app. right. simpl. left.
  - eexists. split; [|apply patch_handle_update_Raise].
    2:{ unfold ReviewPatchSerializer.run_validation, ReviewPatchSerializer.to_internal_value,
          ReviewSerializer.to_internal_value.
        rewrite Hv, (CharField_blank _ _ Hs).
        erewrite (collect_elem_of _ _ ("description"%string, Code code.blank)); [done|].
        apply elem_of_app. right. apply elem_of_app. right. simpl. left. }
    eexists. split; [done|].
    apply elem_of_app. right. apply elem_of_app. right. simpl. left.
Qed.

(** C9. A Review that a create request writes has a rating within 1..5 and
    a non-empty description; a Review that a patch request writes has, for
    each of the two fields, the value it had or a supplied value within the
    same bounds.  A request whose rating is an integer outside 1..5, or any
    value that the field reads as such an integer, is refused with
    RatingOutOfRange; a request whose description is the empty string, or a
    string of white space only, with EmptyDescription; and a refused
    request, whatever the error, leaves the store as it was. *)
Theorem C9_review_writes_are_bounded user reviewer partial pk instance data st :
  (∀ r st', ReviewSerializer.handle_create user reviewer data st = (Ok r, st') →
            1 ≤ Review.rating r.2 ≤ 5 ∧ Review.description r.2 ≠ ""%string)
  ∧ (∀ body r st',
       ReviewPatchSerializer.handle_update partial pk instance body st = (Ok r, st') →
       (Review.rating r.2 = Review.rating instance ∨ 1 ≤ Review.rating r.2 ≤ 5)
       ∧ (Review.description r.2 = Review.description instance
          ∨ Review.description r.2 ≠ ""%string))
  ∧ (∀ v z, dict_get data "rating" = Some v →
            v = VInt z ∨ serializers.IntegerField_to_internal_value v = serializers.Value z →
            ¬ (1 ≤ z ≤ 5) →
            (∃ e, RatingOutOfRange e
                  ∧ ReviewSerializer.handle_create user reviewer data st = (Raise e, st))
            ∧ (∃ e, RatingOutOfRange e
                    ∧ ReviewPatchSerializer.handle_update partial pk instance
                        (ReviewPatchSerializer.Dict data) st
                      = (Raise e, st)))
  ∧ (∀ s, dict_get data "description" = Some (VStr s) →
          s = ""%string ∨ str_strip s = ""%string →
          (∃ e, EmptyDescription e
                ∧ ReviewSerializer.handle_create user reviewer data st = (Raise e, st))
          ∧ (∃ e, EmptyDescription e
                  ∧ ReviewPatchSerializer.handle_update partial pk instance
                      (ReviewPatchSerializer.Dict data) st
                    = (Raise e, st)))
  ∧ (∀ e st', ReviewSerializer.handle_create user reviewer data st = (Raise e, st') →
              st' = st)
  ∧ (∀ body e st',
       ReviewPatchSerializer.handle_update partial pk instance body st = (Raise e, st') →
       st' = st).
Proof.
  split; [|split; [|split; [|split; [|split]]]].
  - intros r st'. apply review_create_bounds.
  - intros body r st'. apply review_patch_bounds.
  - intros v z Hv Hz. apply (review_rating_rejected _ _ _ _ _ _ _ v z Hv).
    by destruct Hz as [->|Hz].
  - intros s. apply review_description_rejected.
  - intros e st'. apply review_handle_create_Raise_inv.
  - intros body e st'. apply patch_handle_update_Raise_inv.
Qed.
End review_bounds.

Section review_bounds_examples.
Existing Instance cpython.python.

Lemma C9_witness :
  dict_get Example.rating_nine "rating" = Some (VInt 9)
  ∧ ¬ (1 ≤ 9 ≤ 5)
  ∧ (∃ e, RatingOutOfRange e
          ∧ ReviewSerializer.handle_create (Some 3) 3 Example.rating_nine Example.st
            = (Raise e, Example.st))
  ∧ (∃ e, RatingOutOfRange e
          ∧ ReviewPatchSerializer.handle_update true 30 Example.review
              (ReviewPatchSerializer.Dict Example.rating_nine) Example.st
            = (Raise e, Example.st)).
Proof.
  assert (Hout : ¬ (1 ≤ 9 ≤ 5)) by lia.
  split; [reflexivity|]. split; [exact Hout|].
  exact (proj1 (proj2 (proj2 (C9_review_writes_are_bounded
                                (Some 3) 3 true 30 Example.review Example.rating_nine
                                Example.st)))
           (VInt 9) 9 eq_refl (or_introl eq_refl) Hout).
Defined.
End review_bounds_examples.

(** * More properties of the serializers *)

(** ** Offer update: validation *)

(** X1. On an update the three-tier rule is not checked again: the data
    passes exactly when every proposed detail holds an [offer_type] and no
    [offer_type] occurs twice (an absent or empty list passes), whatever
    their number and their values; a detail without [offer_type] is reported
    as MissingOfferType before any repeat is looked for. *)
Theorem X1_validate_on_update pk instance a :
  (validate (Some (pk, instance)) a = Ok a
   ↔ (∀ d, d ∈ default [] (details a) → is_Some (get_offer_type d))
     ∧ NoDup (get_offer_type <$> default [] (details a)))
  ∧ (∀ e, validate (Some (pk, instance)) a = Raise e →
          (e = MissingOfferType
           ∧ ∃ d, d ∈ default [] (details a) ∧ get_offer_type d = None)
          ∨ (e = DuplicateOfferType
             ∧ (∀ d, d ∈ default [] (details a) → is_Some (get_offer_type d))
             ∧ ¬ NoDup (get_offer_type <$> default [] (details a)))).
Proof.
  unfold validate.
  destruct (details a) as [[|d1 ds]|]; simpl.
  - split; [|done]. split; [|done]. intros _. split; [by intros d ?%elem_of_nil|constructor].
  - assert (Hmiss : filter (λ d, get_offer_type d = None) (d1 :: ds) = []
                    ↔ ∀ d, d ∈ d1 :: ds → is_Some (get_offer_type d)).
    { split.
      - intros Hnil d Hd. destruct (get_offer_type d) eqn:Hg; [by eexists|]. exfalso.
        assert (Hin : d ∈ filter (λ d, get_offer_type d = None) (d1 :: ds)).
        { by apply list_elem_of_filter. }
        rewrite Hnil in Hin. by apply elem_of_nil in Hin.
      - intros Hall. destruct (filter _ _) as [|d l] eqn:Hf; [done|]. exfalso.
        assert (Hin : d ∈ d :: l) by left. rewrite <- Hf in Hin.
        apply list_elem_of_filter in Hin as [Hnone Hd].
        destruct (Hall d Hd) as [t Ht]. congruence. }
    case_bool_decide as Hnil; simpl.
    + pose proof (proj1 Hmiss Hnil) as Hall.
      destruct (has_duplicates _) eqn:Hdup.
      * assert (Hnd : ¬ NoDup (get_offer_type <$> d1 :: ds)).
        { intros Hnd%has_duplicates_false. simpl in *. congruence. }
        split; [split; [done|by intros [_ ?]]|]. intros e [= <-]. by right.
      * apply has_duplicates_false in Hdup. split; [done|done].
    + assert (Hex : ∃ d, d ∈ d1 :: ds ∧ get_offer_type d = None).
      { destruct (filter _ _) as [|d l] eqn:Hf; [done|].
        assert (Hin : d ∈ d :: l) by left. rewrite <- Hf in Hin.
        apply list_elem_of_filter in Hin as [Hnone Hd]. by exists d. }
      split.
      * split; [done|]. intros [Hall _]. by apply (proj2 Hmiss) in Hall.
      * intros e [= <-]. by left.
  - split; [|done]. split; [|done]. intros _. split; [by intros d ?%elem_of_nil|constructor].
Qed.

(** ** Offer update: which rows are written *)

(** A patch that succeeds rewrites the one child of the Offer with the
    patch's [offer_type], and nothing else. *)
Lemma patch_detail_Ok_row pk detail st st' :
  patch_detail pk detail st = (Ok (), st') →
  ∃ k d, OfferDetail_objects st !! k = Some d
         ∧ OfferDetail.offer d = pk
         ∧ get_offer_type detail = Some (OfferDetail.offer_type d)
         ∧ st' = with_details (insert k (foldl patch_item d detail)) st.
Proof.
  unfold patch_detail, bind, lift, except_DoesNotExist, write, getitem_offer_type.
  destruct (get_offer_type detail) as [t|]; [|done].
  destruct (details_get pk t st) as [[[k d]|e1] st1] eqn:Hget; [|by destruct e1].
  apply details_get_Ok in Hget as (-> & Hk & Ho & Ht & _). intros [= <-].
  exists k, d. simpl in *. by rewrite Ht.
Qed.

Lemma patch_detail_other_rows pk detail st r st' k d :
  patch_detail pk detail st = (r, st') →
  OfferDetail_objects st !! k = Some d →
  OfferDetail.offer d ≠ pk ∨ Some (OfferDetail.offer_type d) ≠ get_offer_type detail →
  OfferDetail_objects st' !! k = Some d.
Proof.
  destruct r as [[]|e]; [|by intros ->%patch_detail_Raise].
  intros (k0 & d0 & Hk0 & Ho & Ht & ->)%patch_detail_Ok_row Hk Hne. simpl.
  rewrite lookup_insert_ne; [done|]. intros <-.
  assert (d0 = d) as -> by congruence. by destruct Hne.
Qed.

Lemma for_each_patch_detail_other_rows pk l st r st' k d :
  for_each l (patch_detail pk) st = (r, st') →
  OfferDetail_objects st !! k = Some d →
  OfferDetail.offer d ≠ pk ∨ Some (OfferDetail.offer_type d) ∉ get_offer_type <$> l →
  OfferDetail_objects st' !! k = Some d.
Proof.
  revert st. induction l as [|p l IH]; intros st; simpl.
  - by intros [= <- <-].
  - intros Hloop Hk Hne.
    assert (Hp : OfferDetail.offer d ≠ pk
                 ∨ Some (OfferDetail.offer_type d) ≠ get_offer_type p).
    { destruct Hne as [?|Hne]; [by left|]. right. intros Heq. apply Hne. rewrite Heq. left. }
    assert (Hl : OfferDetail.offer d ≠ pk
                 ∨ Some (OfferDetail.offer_type d) ∉ get_offer_type <$> l).
    { destruct Hne as [?|Hne]; [by left|]. right. intros Hin. apply Hne. by right. }
    revert Hloop. unfold bind.
    destruct (patch_detail pk p st) as [[[]|e] st1] eqn:H1.
    + intros Hloop. eapply IH; [exact Hloop| |exact Hl].
      by eapply patch_detail_other_rows.
    + intros [= <- <-]. by eapply patch_detail_other_rows.
Qed.

Lemma patch_detail_other_tables pk detail st r st' :
  patch_detail pk detail st = (r, st') → other_tables st' = other_tables st.
Proof.
  destruct r as [[]|e].
  - by intros (k & d & _ & ->)%patch_detail_Ok.
  - by intros ->%patch_detail_Raise.
Qed.

Lemma for_each_patch_detail_other_tables pk l st r st' :
  for_each l (patch_detail pk) st = (r, st') → other_tables st' = other_tables st.
Proof.
  apply (for_each_invariant _ (λ st st', other_tables st' = other_tables st)).
  - done.
  - congruence.
  - intros x st1 r1 st2. apply patch_detail_other_tables.
Qed.

(** What an update request runs once its data has passed validation. *)
Lemma handle_update_validated pk instance data st :
  validate (Some (pk, instance)) data = Ok data →
  handle_update pk instance data st
  = match for_each (default [] (details data)) (patch_detail pk)
            (with_offers (insert pk (merge instance data)) st) with
    | (Ok _, st') => (Ok (pk, merge instance data), st')
    | (Raise e, st') => (Raise e, st')
    end.
Proof.
  intros Hv. unfold handle_update, bind at 1, lift. rewrite Hv.
  unfold update, bind, write. by destruct (details data) as [[|d ds]|].
Qed.

Lemma handle_update_not_validated pk instance data st e :
  validate (Some (pk, instance)) data = Raise e →
  handle_update pk instance data st = (Raise e, st).
Proof. intros Hv. unfold handle_update, bind, lift. by rewrite Hv. Qed.

(** An update of an Offer writes no Order, Review or User, whether it
    succeeds or raises. *)
Lemma handle_update_other_tables pk instance data st :
  other_tables (handle_update pk instance data st).2 = other_tables st.
Proof.
  destruct (validate (Some (pk, instance)) data) as [a|e] eqn:Hv.
  - apply validate_Ok_id in Hv as Ha. subst a.
    rewrite (handle_update_validated _ _ _ _ Hv).
    destruct (for_each _ _ _) as [r st1] eqn:Hloop.
    apply for_each_patch_detail_other_tables in Hloop. by destruct r.
  - by rewrite (handle_update_not_validated _ _ _ _ _ Hv).
Qed.

(** C4. The commercial terms an Order exposes are those of the copy the
    Order row holds.  An update of an Offer, whatever it writes to the
    OfferDetail the Order refers to and whether it succeeds or raises,
    leaves every Order row as it was, so the Order serializes to the same
    six terms; and a status patch of the Order, the one write to an Order
    in the module, keeps them too. *)
Theorem C4_order_terms_are_a_snapshot pk instance data st k order :
  Order_objects st !! k = Some order →
  let st' := (handle_update pk instance data st).2 in
  Order_objects st' !! k = Some order
  ∧ OrderSerializer.commercial_terms (OrderSerializer.to_representation order)
    = (Order.title (Order.offer_detail order), Order.revisions (Order.offer_detail order),
       Order.delivery_time_in_days (Order.offer_detail order),
       Order.price (Order.offer_detail order), Order.features (Order.offer_detail order),
       Order.offer_type (Order.offer_detail order))
  ∧ ∀ partial body o st'',
      OrderStatusUpdateSerializer.handle_update partial k order body st' = (Ok o, st'') →
      Order_objects st'' !! k = Some o.2
      ∧ OrderSerializer.commercial_terms (OrderSerializer.to_representation o.2)
        = OrderSerializer.commercial_terms (OrderSerializer.to_representation order).
Proof.
  intros Hk st'. split; [|split; [done|]].
  - pose proof (handle_update_other_tables pk instance data st) as Ht.
    unfold other_tables in Ht. fold st' in Ht. by injection Ht as -> _ _.
  - intros partial body o st''.
    unfold OrderStatusUpdateSerializer.handle_update, bind, lift.
    destruct (OrderStatusUpdateSerializer.run_validation partial body) as [attrs|e] eqn:Hv;
      [|done].
    apply status_to_internal_value_keys' in Hv as (s & ->).
    unfold OrderStatusUpdateSerializer.update, bind, write, ret. simpl.
    intros [= <- <-]. simpl. by rewrite lookup_insert_eq.
Qed.

Lemma C4_witness :
  Order_objects Example.st !! 20 = Some Example.order
  ∧ OfferDetail.price <$> OfferDetail_objects Example.st !! 10 = Some 100
  ∧ OfferDetail.price
      <$> OfferDetail_objects
            (handle_update 1 Example.logo Example.patch_standard Example.st).2 !! 10
    = Some 50
  ∧ Order_objects (handle_update 1 Example.logo Example.patch_standard Example.st).2 !! 20
    = Some Example.order
  ∧ OrderSerializer.price (OrderSerializer.to_representation Example.order) = 100.
Proof.
  assert (Hk : Order_objects Example.st !! 20 = Some Example.order).
  { vm_compute. reflexivity. }
  split; [exact Hk|]. split; [vm_compute; reflexivity|]. split; [vm_compute; reflexivity|].
  split; [|reflexivity].
  exact (proj1 (C4_order_terms_are_a_snapshot 1 Example.logo Example.patch_standard
                  Example.st 20 Example.order Hk)).
Defined.

(** X4. An update of an Offer, whether it succeeds or raises, writes no
    other Offer row, no detail row of another Offer, and no Order, Review or
    User; and the Offer row it writes keeps its owner. *)
Theorem X4_update_writes_only_its_offer pk instance data st :
  let st' := (handle_update pk instance data st).2 in
  (∀ k, k ≠ pk → Offer_objects st' !! k = Offer_objects st !! k)
  ∧ (∀ k d, OfferDetail_objects st !! k = Some d → OfferDetail.offer d ≠ pk →
            OfferDetail_objects st' !! k = Some d)
  ∧ other_tables st' = other_tables st
  ∧ (Offer_objects st' !! pk = Offer_objects st !! pk
     ∨ ∃ row, Offer_objects st' !! pk = Some row
              ∧ Offer.user row = Offer.user instance).
Proof.
  destruct (validate (Some (pk, instance)) data) as [a|e] eqn:Hv.
  - apply validate_Ok_id in Hv as Ha. subst a.
    rewrite (handle_update_validated _ _ _ _ Hv).
    destruct (for_each _ _ _) as [r st1] eqn:Hloop.
    assert (st1 = (match r with
                   | Ok _ => (Ok (pk, merge instance data), st1)
                   | Raise e => (Raise e, st1)
                   end).2) as <- by by destruct r.
    pose proof (for_each_patch_detail_offers _ _ _ _ _ Hloop) as Ho.
    pose proof (for_each_patch_detail_other_tables _ _ _ _ _ Hloop) as Ht.
    split; [|split; [|split]].
    + intros k Hk. rewrite Ho. simpl. by rewrite lookup_insert_ne.
    + intros k d Hk Hne. eapply for_each_patch_detail_other_rows; [exact Hloop|exact Hk|].
      by left.
    + by rewrite Ht.
    + right. exists (merge instance data). rewrite Ho. simpl.
      by rewrite lookup_insert_eq.
  - rewrite (handle_update_not_validated _ _ _ _ _ Hv). simpl. auto.
Qed.

(** ** Offer update: when it succeeds *)

Lemma validate_update_Raise pk instance a e :
  validate (Some (pk, instance)) a = Raise e →
  e = MissingOfferType ∨ e = DuplicateOfferType.
Proof. unfold validate. repeat case_match; intros [= <-]; auto. Qed.

Lemma for_each_patch_detail_present pk l st :
  NoDup (child_types pk st) →
  (∀ p, p ∈ l → ∃ t, get_offer_type p = Some t ∧ t ∈ child_types pk st) →
  ∃ st', for_each l (patch_detail pk) st = (Ok (), st').
Proof.
  revert st. induction l as [|p l IH]; intros st Hnd Hall; simpl; [by eexists|].
  destruct (Hall p) as (t & Ht & Hin); [left|].
  destruct (patch_detail_present pk p t st Ht Hin Hnd) as [st1 H1].
  assert (Hsame : child_types pk st1 = child_types pk st).
  { apply patch_detail_tags in H1. unfold keeps_tags in H1.
    by rewrite !child_types_tags, H1. }
  unfold bind. rewrite H1. apply IH.
  - by rewrite Hsame.
  - intros p' Hp'. rewrite Hsame. apply Hall. by right.
Qed.

(** X5. When the children of the Offer have distinct types, an update
    request succeeds exactly when its data passes validation and every
    patch names the [offer_type] of a child; and every failure is one of the
    three validation errors MissingOfferType, DuplicateOfferType and
    DetailNotFound, the last naming a type no child has: no [KeyError] and
    no [MultipleObjectsReturned] gets out. *)
Theorem X5_update_succeeds_iff pk instance data st :
  NoDup (child_types pk st) →
  ((∃ offer st', handle_update pk instance data st = (Ok offer, st'))
   ↔ validate (Some (pk, instance)) data = Ok data
     ∧ ∀ p, p ∈ default [] (details data) →
            ∃ t, get_offer_type p = Some t ∧ t ∈ child_types pk st)
  ∧ (∀ e st', handle_update pk instance data st = (Raise e, st') →
              e = MissingOfferType ∨ e = DuplicateOfferType
              ∨ ∃ t, e = DetailNotFound t ∧ (t ∉ child_types pk st)).
Proof.
  intros Hnd.
  destruct (validate (Some (pk, instance)) data) as [a|e] eqn:Hv.
  2:{ rewrite (handle_update_not_validated _ _ _ _ _ Hv). split.
      - split; [by intros (? & ? & ?)|by intros [? _]].
      - intros e' st' [= <- <-].
        apply validate_update_Raise in Hv as [-> | ->]; auto. }
  apply validate_Ok_id in Hv as Ha. subst a.
  rewrite (handle_update_validated _ _ _ _ Hv).
  set (st1 := with_offers (insert pk (merge instance data)) st).
  assert (Hnd1 : NoDup (child_types pk st1)) by done.
  assert (Htypes : ∀ p, p ∈ default [] (details data) → is_Some (get_offer_type p)).
  { intros p. by eapply validate_update_offer_types. }
  split.
  - split.
    + intros (offer & st' & Hu). split; [done|]. intros p Hp.
      destruct (Htypes p Hp) as [t Ht]. exists t. split; [done|].
      destruct (decide (t ∈ child_types pk st)) as [|Hnin]; [done|]. exfalso.
      destruct (for_each_patch_detail_missing pk (default [] (details data)) t st1
                  Hnd1 Htypes) as (t' & st2 & Hloop & _); [by exists p|].
      rewrite Hloop in Hu. done.
    + intros [_ Hall].
      destruct (for_each_patch_detail_present pk _ st1 Hnd1 Hall) as [st' ->].
      by eexists _, _.
  - intros e st'.
    destruct (for_each _ _ st1) as [[[]|e1] st2] eqn:Hloop; [done|]. intros [= <- <-].
    right. right.
    apply for_each_Raise_split in Hloop as (done & p & rest & st3 & Hl & Hdone & Hp).
    destruct (Htypes p) as [t Ht]; [rewrite Hl; apply elem_of_app; right; left|].
    assert (Hsame : child_types pk st3 = child_types pk st).
    { apply for_each_patch_detail_tags in Hdone. unfold keeps_tags in Hdone.
      rewrite !child_types_tags, Hdone. done. }
    exists t. destruct (decide (t ∈ child_types pk st)) as [Hin|Hnin].
    + exfalso. rewrite <- Hsame in Hin, Hnd.
      destruct (patch_detail_present pk p t st3 Ht Hin Hnd) as [st4 H4]. congruence.
    + rewrite <- Hsame in Hnin.
      rewrite (patch_detail_missing pk p t st3 Ht Hnin) in Hp. injection Hp as <- _.
      by rewrite <- Hsame.
Qed.

Lemma X5_witness :
  NoDup (child_types 1 Example.st)
  ∧ validate (Some (1, Example.logo)) Example.patch_standard = Ok Example.patch_standard
  ∧ ∃ offer st',
      handle_update 1 Example.logo Example.patch_standard Example.st = (Ok offer, st').
Proof.
  assert (Hnd : NoDup (child_types 1 Example.st)).
  { apply (bool_decide_unpack _). vm_compute. exact I. }
  assert (Hv : validate (Some (1, Example.logo)) Example.patch_standard
               = Ok Example.patch_standard).
  { vm_compute. reflexivity. }
  split; [exact Hnd|]. split; [exact Hv|].
  apply (proj2 (proj1 (X5_update_succeeds_iff
                         1 Example.logo Example.patch_standard Example.st Hnd))).
  split; [exact Hv|]. intros p Hp.
  exists "standard"%string.
  apply list_elem_of_singleton in Hp. subst p. split; [reflexivity|].
  apply (bool_decide_unpack _). vm_compute. exact I.
Defined.

(** ** Offer update: what a patch does to the row *)

Lemma getattr_patch_item_other d i name :
  name ≠ key i ∨ name = "offer_type"%string →
  getattr (patch_item d i) name = getattr d name.
Proof.
  intros Hne. destruct d, i; unfold patch_item, getattr; simpl;
    repeat (case_match; try done); simplify_eq/=;
    repeat match goal with
           | H : String.eqb _ _ = true |- _ => apply String.eqb_eq in H; subst
           end; by destruct Hne.
Qed.

Lemma getattr_patch_item_same d i :
  key i ≠ "offer_type"%string → getattr (patch_item d i) (key i) = Some i.
Proof. by destruct d, i. Qed.

Lemma getattr_foldl_other detail d name :
  name ∉ key <$> detail ∨ name = "offer_type"%string →
  getattr (foldl patch_item d detail) name = getattr d name.
Proof.
  revert d. induction detail as [|i detail IH]; intros d Hne; simpl; [done|].
  rewrite IH.
  - apply getattr_patch_item_other. destruct Hne as [Hne|?]; [left|by right].
    intros ->. apply Hne. left.
  - destruct Hne as [Hne|?]; [left|by right]. intros Hin. apply Hne. by right.
Qed.

Lemma getattr_foldl_same detail d i :
  NoDup (key <$> detail) → i ∈ detail → key i ≠ "offer_type"%string →
  getattr (foldl patch_item d detail) (key i) = Some i.
Proof.
  revert d. induction detail as [|j detail IH]; intros d Hnd Hi Hne; simpl.
  { by apply elem_of_nil in Hi. }
  apply NoDup_cons in Hnd as [Hj Hnd].
  apply elem_of_cons in Hi as [->|Hi].
  - rewrite getattr_foldl_other by (by left). by apply getattr_patch_item_same.
  - by apply IH.
Qed.

(** X3. A patch that succeeds writes one child of the Offer, the one whose
    [offer_type] the patch names: each field the patch holds, other than
    [offer_type], gets the patch's value, and every field the patch does not
    hold, and [offer_type] in any case, keeps the value it had. *)
Theorem X3_patch_sets_the_supplied_fields pk detail st st' :
  patch_detail pk detail st = (Ok (), st') →
  NoDup (key <$> detail) →
  ∃ k d d',
    OfferDetail_objects st !! k = Some d
    ∧ OfferDetail.offer d = pk
    ∧ get_offer_type detail = Some (OfferDetail.offer_type d)
    ∧ OfferDetail_objects st' = <[k := d']> (OfferDetail_objects st)
    ∧ (∀ i, i ∈ detail → key i ≠ "offer_type"%string → getattr d' (key i) = Some i)
    ∧ (∀ name, name ∉ key <$> detail ∨ name = "offer_type"%string →
               getattr d' name = getattr d name)
    ∧ OfferDetail.offer d' = OfferDetail.offer d.
Proof.
  intros (k & d & Hk & Ho & Ht & ->)%patch_detail_Ok_row Hnd.
  exists k, d, (foldl patch_item d detail). repeat split; try done.
  - intros i Hi Hne. by apply getattr_foldl_same.
  - intros name. apply getattr_foldl_other.
  - pose proof (foldl_patch_item_tag detail d) as Htag. unfold tag in Htag. congruence.
Qed.

Lemma X3_witness :
  patch_detail 1 [OfferType "standard"; Price 50] Example.st = (Ok (), Example.st_patched)
  ∧ NoDup (key <$> [OfferType "standard"; Price 50])
  ∧ ∃ k d d',
      OfferDetail_objects Example.st !! k = Some d
      ∧ OfferDetail.offer d = 1
      ∧ get_offer_type [OfferType "standard"; Price 50]
        = Some (OfferDetail.offer_type d)
      ∧ OfferDetail_objects Example.st_patched = <[k := d']> (OfferDetail_objects Example.st)
      ∧ (∀ i, i ∈ [OfferType "standard"; Price 50] → key i ≠ "offer_type"%string →
              getattr d' (key i) = Some i)
      ∧ (∀ name, name ∉ key <$> [OfferType "standard"; Price 50]
                 ∨ name = "offer_type"%string →
                 getattr d' name = getattr d name)
      ∧ OfferDetail.offer d' = OfferDetail.offer d.
Proof.
  assert (Hp : patch_detail 1 [OfferType "standard"; Price 50] Example.st
               = (Ok (), Example.st_patched)).
  { vm_compute. reflexivity. }
  assert (Hnd : NoDup (key <$> [OfferType "standard"; Price 50])).
  { apply (bool_decide_unpack _). vm_compute. exact I. }
  split; [exact Hp|]. split; [exact Hnd|].
  exact (X3_patch_sets_the_supplied_fields
           1 [OfferType "standard"; Price 50] Example.st Example.st_patched Hp Hnd).
Defined.

(** ** Offer update: running it again *)

Lemma patch_item_idem d i : patch_item (patch_item d i) i = patch_item d i.
Proof. by destruct d, i. Qed.

(** Rows that agree once [i] is set still agree once [i] is set after any
    other item. *)
Lemma patch_item_agree d1 d2 i j :
  patch_item d1 i = patch_item d2 i →
  patch_item (patch_item d1 j) i = patch_item (patch_item d2 j) i.
Proof.
  destruct d1, d2, i, j; intros H; compute in H |- *; congruence.
Qed.

Lemma foldl_patch_item_agree l d1 d2 i :
  patch_item d1 i = patch_item d2 i →
  patch_item (foldl patch_item d1 l) i = patch_item (foldl patch_item d2 l) i.
Proof.
  revert d1 d2. induction l as [|j l IH]; intros d1 d2 H12; simpl; [done|].
  by apply IH, patch_item_agree.
Qed.

Lemma foldl_patch_item_idem l d :
  foldl patch_item (foldl patch_item d l) l = foldl patch_item d l.
Proof.
  induction l as [|i l IH] using rev_ind; [done|].
  rewrite !foldl_app. simpl.
  rewrite (foldl_patch_item_agree l _ (foldl patch_item d l) i).
  - by rewrite IH.
  - apply patch_item_idem.
Qed.

Lemma with_details_insert_id k d st :
  OfferDetail_objects st !! k = Some d → with_details (insert k d) st = st.
Proof. intros Hk. destruct st. unfold with_details. simpl in *. by rewrite insert_id. Qed.

Lemma with_offers_insert_id k o st :
  Offer_objects st !! k = Some o → with_offers (insert k o) st = st.
Proof. intros Hk. destruct st. unfold with_offers. simpl in *. by rewrite insert_id. Qed.

Lemma elem_of_child_types pk t st :
  t ∈ child_types pk st
  ↔ ∃ k d, OfferDetail_objects st !! k = Some d
           ∧ OfferDetail.offer d = pk ∧ OfferDetail.offer_type d = t.
Proof.
  unfold child_types. rewrite list_elem_of_fmap. split.
  - intros ([k d] & -> & Hin). apply elem_of_map_to_list, map_lookup_filter_Some in Hin.
    exists k, d. tauto.
  - intros (k & d & Hk & Ho & Ht). exists (k, d). split; [done|].
    by apply elem_of_map_to_list, map_lookup_filter_Some.
Qed.

Lemma keeps_tags_child_types pk st st' :
  keeps_tags st st' → child_types pk st' = child_types pk st.
Proof. unfold keeps_tags. intros Hu. by rewrite !child_types_tags, Hu. Qed.

(** After a loop that has applied patches of distinct types, each of them
    finds its row as it left it. *)
Lemma for_each_patch_detail_again pk l st st1 p :
  for_each l (patch_detail pk) st = (Ok (), st1) →
  NoDup (child_types pk st) →
  NoDup (get_offer_type <$> l) →
  p ∈ l →
  patch_detail pk p st1 = (Ok (), st1).
Proof.
  revert st. induction l as [|q l IH]; intros st Hloop Hnd Htypes Hp.
  { by apply elem_of_nil in Hp. }
  revert Hloop. simpl. unfold bind.
  destruct (patch_detail pk q st) as [[[]|e] st2] eqn:Hq; [|done]. intros Hloop.
  pose proof (keeps_tags_child_types pk _ _ (patch_detail_tags _ _ _ _ _ Hq)) as Hsame2.
  pose proof (keeps_tags_child_types pk _ _ (for_each_patch_detail_tags _ _ _ _ _ Hloop))
    as Hsame1.
  apply NoDup_cons in Htypes as [Hq_notin Htypes].
  apply elem_of_cons in Hp as [->|Hp].
  2:{ eapply IH; [exact Hloop|by rewrite Hsame2|done..]. }
  apply patch_detail_Ok_row in Hq as (k & d & Hk & Ho & Ht & ->).
  set (d' := foldl patch_item d q) in *.
  assert (Htag : tag d' = tag d) by apply foldl_patch_item_tag.
  assert (Ho' : OfferDetail.offer d' = pk) by (unfold tag in Htag; congruence).
  assert (Ht' : OfferDetail.offer_type d' = OfferDetail.offer_type d)
    by (unfold tag in Htag; congruence).
  assert (Hk1 : OfferDetail_objects st1 !! k = Some d').
  { eapply for_each_patch_detail_other_rows; [exact Hloop|..].
    - simpl. apply lookup_insert_eq.
    - right. by rewrite Ht', <- Ht. }
  assert (Hin : OfferDetail.offer_type d ∈ child_types pk st1).
  { apply elem_of_child_types. by exists k, d'. }
  assert (Hnd1 : NoDup (child_types pk st1)) by (by rewrite Hsame1, Hsame2).
  destruct (details_get_present pk _ st1 Hin Hnd1) as [kd Hget].
  pose proof (details_get_Ok _ _ _ _ _ Hget) as (_ & Hkd & _ & _ & Huniq).
  pose proof (Huniq k d' Hk1 Ho' Ht') as Hkk.
  unfold patch_detail, bind, lift, except_DoesNotExist, write, getitem_offer_type.
  rewrite Ht, Hget. f_equal.
  assert (kd.2 = d') as -> by (rewrite <- Hkk in Hkd; congruence).
  rewrite <- Hkk. unfold d'. rewrite foldl_patch_item_idem.
  by apply with_details_insert_id.
Qed.

Lemma for_each_fixed {T} (body : T → M ()) (l : list T) st :
  (∀ x, x ∈ l → body x st = (Ok (), st)) → for_each l body st = (Ok (), st).
Proof.
  induction l as [|x l IH]; intros Hall; simpl; [done|].
  unfold bind. rewrite Hall by left. apply IH. intros y Hy. apply Hall. by right.
Qed.

Lemma validate_update_NoDup pk instance a :
  validate (Some (pk, instance)) a = Ok a →
  NoDup (get_offer_type <$> default [] (details a)).
Proof.
  unfold validate.
  destruct (details a) as [[|d ds]|]; simpl; [intros _; constructor| |intros _; constructor].
  case_bool_decide; simpl; [|done].
  destruct (has_duplicates _) eqn:Hdup; [done|]. intros _.
  by apply has_duplicates_false in Hdup.
Qed.

Lemma merge_idem instance a : merge (merge instance a) a = merge instance a.
Proof. unfold merge. simpl. by destruct (title a), (image a), (description a). Qed.

(** X6. An update that has succeeded can be sent again: when the children
    of the Offer have distinct types, the same data applied to the Offer as
    the first update returned it succeeds, and it leaves every OfferDetail
    row as the first update left it and the Offer with the owner, the title
    and the description the first update gave it.  (Of the Offer this says
    nothing more: every save renews its time stamp, and an image sent again
    is stored again.) *)
Theorem X6_update_again_keeps_the_rows pk instance data st offer st1 :
  handle_update pk instance data st = (Ok offer, st1) →
  NoDup (child_types pk st) →
  ∃ offer2 st2,
    handle_update offer.1 offer.2 data st1 = (Ok offer2, st2)
    ∧ OfferDetail_objects st2 = OfferDetail_objects st1
    ∧ offer2.1 = offer.1
    ∧ Offer.user offer2.2 = Offer.user offer.2
    ∧ Offer.title offer2.2 = Offer.title offer.2
    ∧ Offer.description offer2.2 = Offer.description offer.2.
Proof.
  intros Hu Hnd. exists offer, st1. split; [|done].
  destruct (validate (Some (pk, instance)) data) as [a|e] eqn:Hv.
  2:{ by rewrite (handle_update_not_validated _ _ _ _ _ Hv) in Hu. }
  apply validate_Ok_id in Hv as Ha. subst a.
  rewrite (handle_update_validated _ _ _ _ Hv) in Hu.
  destruct (for_each _ _ _) as [[[]|e] st2] eqn:Hloop; [|done].
  injection Hu as <- <-. simpl.
  assert (Hv' : validate (Some (pk, merge instance data)) data = Ok data) by exact Hv.
  rewrite (handle_update_validated _ _ _ _ Hv'), merge_idem.
  rewrite with_offers_insert_id.
  2:{ rewrite (for_each_patch_detail_offers _ _ _ _ _ Hloop). apply lookup_insert_eq. }
  rewrite for_each_fixed; [done|].
  intros p Hp. eapply for_each_patch_detail_again; [exact Hloop|exact Hnd| |exact Hp].
  by eapply validate_update_NoDup.
Qed.

Lemma X6_witness :
  handle_update 1 Example.logo Example.patch_standard Example.st
  = (Ok (1, Example.logo), Example.st_patched)
  ∧ NoDup (child_types 1 Example.st)
  ∧ ∃ offer2 st2,
      handle_update 1 Example.logo Example.patch_standard Example.st_patched
      = (Ok offer2, st2)
      ∧ OfferDetail_objects st2 = OfferDetail_objects Example.st_patched
      ∧ offer2.1 = 1
      ∧ Offer.user offer2.2 = 7
      ∧ Offer.title offer2.2 = "Logo"%string
      ∧ Offer.description offer2.2 = "A logo"%string.
Proof.
  assert (Hu : handle_update 1 Example.logo Example.patch_standard Example.st
               = (Ok (1, Example.logo), Example.st_patched)).
  { vm_compute. reflexivity. }
  assert (Hnd : NoDup (child_types 1 Example.st)).
  { apply (bool_decide_unpack _). vm_compute. exact I. }
  split; [exact Hu|]. split; [exact Hnd|].
  exact (X6_update_again_keeps_the_rows
           1 Example.logo Example.patch_standard Example.st
           (1, Example.logo) Example.st_patched Hu Hnd).
Defined.

(** ** Offer creation: what is written *)

(** The key an insert assigns is not in use. *)
Lemma next_pk_fresh {A} (tbl : gmap Z A) : tbl !! next_pk tbl = None.
Proof.
  unfold next_pk.
  assert (Hmax : ∀ k, is_Some (tbl !! k) → k ≤ map_fold (λ k _ acc, Z.max k acc) 0 tbl).
  { apply (map_fold_weak_ind (λ r m, ∀ k, is_Some (m !! k) → k ≤ r)).
    - intros k [x Hx]. by rewrite lookup_empty in Hx.
    - intros i x m r Hi IH k Hk. destruct (decide (i = k)) as [->|Hne]; [lia|].
      rewrite lookup_insert_ne in Hk by done. specialize (IH k Hk). lia. }
  destruct (tbl !! _) eqn:Hk; [|done]. exfalso.
  specialize (Hmax _ (mk_is_Some _ _ Hk)). lia.
Qed.

Lemma setattr_offer d i : OfferDetail.offer (setattr d i) = OfferDetail.offer d.
Proof. by destruct d, i. Qed.

Lemma foldl_setattr_offer detail d :
  OfferDetail.offer (foldl setattr d detail) = OfferDetail.offer d.
Proof.
  revert d. induction detail as [|i detail IH]; intros d; simpl; [done|].
  by rewrite IH, setattr_offer.
Qed.

Lemma foldl_setattr_offer_type_other detail d :
  "offer_type"%string ∉ key <$> detail →
  OfferDetail.offer_type (foldl setattr d detail) = OfferDetail.offer_type d.
Proof.
  revert d. induction detail as [|i detail IH]; intros d Hne; simpl; [done|].
  rewrite IH.
  - destruct d, i; try done. exfalso. apply Hne. left.
  - intros Hin. apply Hne. by right.
Qed.

(** The row built from a dict has the dict's [offer_type]. *)
Lemma foldl_setattr_offer_type detail d t :
  NoDup (key <$> detail) → get_offer_type detail = Some t →
  OfferDetail.offer_type (foldl setattr d detail) = t.
Proof.
  revert d. induction detail as [|i detail IH]; intros d Hnd Hg; [done|].
  apply NoDup_cons in Hnd as [Hi Hnd]. simpl.
  destruct i; simpl in Hg; try (by apply IH).
  injection Hg as ->. rewrite foldl_setattr_offer_type_other by done. by destruct d.
Qed.

Lemma child_types_insert_fresh pk k d st :
  OfferDetail_objects st !! k = None →
  child_types pk (with_details (insert k d) st)
  ≡ₚ (if decide (OfferDetail.offer d = pk) then [OfferDetail.offer_type d] else [])
     ++ child_types pk st.
Proof.
  intros Hk. unfold child_types. simpl. case_decide as Ho.
  - rewrite map_filter_insert_True by done.
    rewrite map_to_list_insert; [done|]. by apply map_lookup_filter_None_2; left.
  - rewrite map_filter_insert_False by done. by rewrite delete_id.
Qed.

Lemma for_each_OfferDetail_create offer l st :
  ∃ st',
    for_each l (λ detail, OfferDetail_create offer detail) st = (Ok (), st')
    ∧ Offer_objects st' = Offer_objects st
    ∧ other_tables st' = other_tables st
    ∧ (∀ k d, OfferDetail_objects st !! k = Some d → OfferDetail_objects st' !! k = Some d)
    ∧ child_types offer st'
      ≡ₚ ((λ detail, OfferDetail.offer_type
                       (foldl setattr (OfferDetail.mk offer "" 0 0 0 [] "") detail)) <$> l)
         ++ child_types offer st.
Proof.
  revert st. induction l as [|detail l IH]; intros st; simpl.
  { exists st. by repeat split. }
  unfold bind, OfferDetail_create at 1, write.
  set (row := foldl setattr (OfferDetail.mk offer "" 0 0 0 [] "") detail).
  set (st1 := with_details (insert (next_pk (OfferDetail_objects st)) row) st).
  destruct (IH st1) as (st' & Hloop & Ho & Ht & Hrows & Hperm).
  exists st'. split; [done|]. split; [by rewrite Ho|]. split; [by rewrite Ht|]. split.
  - intros k d Hk. apply Hrows. simpl. rewrite lookup_insert_ne; [done|].
    intros <-. by rewrite next_pk_fresh in Hk.
  - rewrite Hperm. unfold st1.
    rewrite child_types_insert_fresh by apply next_pk_fresh.
    rewrite decide_True by apply foldl_setattr_offer.
    simpl. by rewrite <- Permutation_middle.
Qed.

Lemma offer_types_of_rows offer (ds : list (list item)) :
  (∀ d, d ∈ ds → NoDup (key <$> d)) →
  get_offer_type <$> ds ≡ₚ [Some "basic"; Some "standard"; Some "premium"]%string →
  (λ detail, OfferDetail.offer_type
               (foldl setattr (OfferDetail.mk offer "" 0 0 0 [] "") detail)) <$> ds
  ≡ₚ ["basic"; "standard"; "premium"]%string.
Proof.
  intros Hnd Hperm.
  assert (Heq : (λ detail, OfferDetail.offer_type
                   (foldl setattr (OfferDetail.mk offer "" 0 0 0 [] "") detail)) <$> ds
                = omap id (get_offer_type <$> ds)).
  { assert (Hsome : ∀ d, d ∈ ds → is_Some (get_offer_type d)).
    { intros d Hd.
      assert (Hin : get_offer_type d ∈ get_offer_type <$> ds) by by apply list_elem_of_fmap_2.
      rewrite Hperm in Hin.
      repeat (apply elem_of_cons in Hin as [->|Hin]; [by eexists|]).
      by apply elem_of_nil in Hin. }
    clear Hperm. induction ds as [|d ds IH]; [done|].
    destruct (Hsome d) as [t Ht]; [left|]. cbn [fmap list_fmap omap list_omap].
    rewrite Ht. simpl. f_equal.
    - apply foldl_setattr_offer_type; [|done]. apply Hnd. left.
    - apply IH; intros d' Hd'; [apply Hnd|apply Hsome]; by right. }
  rewrite Heq, Hperm. done.
Qed.

(** X2. A creation request that succeeds stores the Offer under a key that
    was free, with the owner it was given, and leaves every other Offer row,
    every existing detail row and the other tables as they were.  When the
    proposed details are dicts (no key twice) and no detail row already
    refers to that key, the new Offer has exactly three children, of the
    types basic, standard and premium. *)
Theorem X2_create_writes_the_three_tiers user data st offer st' :
  handle_create user data st = (Ok offer, st') →
  (∀ d, d ∈ default [] (details data) → NoDup (key <$> d)) →
  (∀ k d, OfferDetail_objects st !! k = Some d →
          OfferDetail.offer d ≠ next_pk (Offer_objects st)) →
  Offer_objects st !! offer.1 = None
  ∧ Offer_objects st' = <[offer.1 := offer.2]> (Offer_objects st)
  ∧ Offer.user offer.2 = user
  ∧ (∀ k d, OfferDetail_objects st !! k = Some d → OfferDetail_objects st' !! k = Some d)
  ∧ other_tables st' = other_tables st
  ∧ child_types offer.1 st' ≡ₚ ["basic"; "standard"; "premium"]%string.
Proof.
  intros Hc Hkeys Hfree. revert Hc. unfold handle_create, bind at 1, lift.
  destruct (validate None data) as [a|e] eqn:Hv; [|done].
  apply validate_Ok_id in Hv as Ha. subst a.
  apply validate_create_Ok in Hv as (ds & Hds & Hlen & Hperm).
  unfold create. rewrite Hds. unfold bind at 1, lift. unfold bind at 1, Offer_create.
  set (pk := next_pk (Offer_objects st)).
  set (row := Offer.mk user _ _ _).
  set (st1 := with_offers (insert pk row) st).
  destruct (for_each_OfferDetail_create pk ds st1) as (st2 & Hloop & Ho & Ht & Hrows & Hch).
  unfold bind. simpl. rewrite Hloop. intros [= <- <-]. simpl.
  split; [apply next_pk_fresh|]. split; [by rewrite Ho|]. split; [done|].
  split; [exact Hrows|]. split; [by rewrite Ht|].
  rewrite Hch.
  assert (Hnone : child_types pk st1 = []).
  { destruct (child_types pk st1) as [|t l] eqn:Hl; [done|]. exfalso.
    assert (Hin : t ∈ child_types pk st1) by (rewrite Hl; left).
    apply elem_of_child_types in Hin as (k & d & Hk & Hpk & _).
    by eapply Hfree. }
  rewrite Hnone, app_nil_r. apply offer_types_of_rows; [|done].
  intros d Hd. apply Hkeys. by rewrite Hds.
Qed.

Lemma X2_witness :
  handle_create 7 Example.new_offer Example.st
  = (Ok (2, Offer.mk 7 "Flyer" None "A flyer"), Example.st_created)
  ∧ child_types 2 Example.st = []
  ∧ child_types 2 Example.st_created ≡ₚ ["basic"; "standard"; "premium"]%string.
Proof.
  assert (Hc : handle_create 7 Example.new_offer Example.st
               = (Ok (2, Offer.mk 7 "Flyer" None "A flyer"), Example.st_created)).
  { vm_compute. reflexivity. }
  assert (Hkeys : ∀ d, d ∈ default [] (details Example.new_offer) → NoDup (key <$> d)).
  { apply Forall_forall. apply (bool_decide_unpack _). vm_compute. exact I. }
  assert (Hfree : ∀ k d, OfferDetail_objects Example.st !! k = Some d →
                         OfferDetail.offer d ≠ next_pk (Offer_objects Example.st)).
  { assert (Hall : map_Forall (λ (_ : Z) d, OfferDetail.offer d
                                  ≠ next_pk (Offer_objects Example.st))
                               (OfferDetail_objects Example.st)).
    { apply (bool_decide_unpack _). vm_compute. exact I. }
    intros k d Hk. exact (map_Forall_lookup_1 _ _ k d Hall Hk). }
  split; [exact Hc|]. split; [vm_compute; reflexivity|].
  exact (proj2 (proj2 (proj2 (proj2 (proj2
           (X2_create_writes_the_three_tiers 7 Example.new_offer Example.st _ _
              Hc Hkeys Hfree)))))).
Defined.

(** ** Order status patches: what is accepted and what is written *)

Lemma status_run_validation_Ok partial data attrs :
  OrderStatusUpdateSerializer.run_validation partial data = Ok attrs →
  ∃ s, dict_get data "status" = Some (VStr s) ∧ s ∈ Order.STATUS_CHOICES
       ∧ attrs = [("status"%string, VStr s)].
Proof.
  unfold OrderStatusUpdateSerializer.run_validation,
    OrderStatusUpdateSerializer.to_internal_value, serializers.ChoiceField,
    serializers.validate_empty_values.
  destruct (dict_get data "status") as [[]|]; simpl; try (by destruct partial); try done.
  case_bool_decide; simpl; [|done]. intros [= <-]. by eexists.
Qed.

Lemma status_run_validation_Raise partial data e :
  OrderStatusUpdateSerializer.run_validation partial data = Raise e →
  e = match dict_get data "status" with
      | None =>
          if partial then OrderStatusUpdateSerializer.EmptyUpdate
          else ValidationError (ByField [("status"%string, Code code.required)])
      | Some VNone => ValidationError (ByField [("status"%string, Code code.null)])
      | Some _ => ValidationError (ByField [("status"%string, Code code.invalid_choice)])
      end.
Proof.
  unfold OrderStatusUpdateSerializer.run_validation,
    OrderStatusUpdateSerializer.to_internal_value, serializers.ChoiceField,
    serializers.validate_empty_values.
  destruct (dict_get data "status") as [[| | | |s| |]|]; simpl;
    try (by intros [= <-]).
  - case_bool_decide; simpl; [|by intros [= <-]]. by vm_compute.
  - destruct partial; simpl; by intros [= <-].
Qed.

(** X7. A status patch is accepted exactly when the request body holds,
    under [status], a string that is one of [Order.STATUS_CHOICES], whatever
    else the body holds and whether the update is partial or not.  An
    accepted patch returns the instance with that status and its two users,
    its OfferDetail reference and its terms as they were, and saves it under
    the instance's key: no other Order row and no other table changes. *)
Theorem X7_status_patch_accepted_iff partial pk instance data st :
  (∀ s, dict_get data "status" = Some (VStr s) → s ∈ Order.STATUS_CHOICES →
     let saved := Order.mk (Order.customer_user instance) (Order.business_user instance)
                           s (Order.offer_detail_id instance)
                           (Order.offer_detail instance) in
     OrderStatusUpdateSerializer.handle_update partial pk instance data st
     = (Ok (pk, saved), with_orders (insert pk saved) st))
  ∧ (∀ o st',
       OrderStatusUpdateSerializer.handle_update partial pk instance data st = (Ok o, st') →
       ∃ s, dict_get data "status" = Some (VStr s) ∧ s ∈ Order.STATUS_CHOICES
            ∧ o = (pk, Order.mk (Order.customer_user instance)
                                (Order.business_user instance) s
                                (Order.offer_detail_id instance)
                                (Order.offer_detail instance))
            ∧ st' = with_orders (insert pk o.2) st).
Proof.
  split.
  - intros s Hs Hin saved.
    unfold OrderStatusUpdateSerializer.handle_update, bind, lift.
    by rewrite (status_run_validation_ignores_other_keys partial data s Hs Hin).
  - intros o st'. unfold OrderStatusUpdateSerializer.handle_update, bind, lift.
    destruct (OrderStatusUpdateSerializer.run_validation partial data) as [attrs|e] eqn:Hv;
      [|done].
    apply status_run_validation_Ok in Hv as (s & Hs & Hin & ->).
    unfold OrderStatusUpdateSerializer.update, bind, write, ret. simpl.
    intros [= <- <-]. by exists s.
Qed.

(** X8. A refused status patch writes nothing, and its error depends on the
    [status] key of the request body alone: without the key, a partial
    update is refused as EmptyUpdate and a full update with the [required]
    error on [status]; a null status gives the [null] error; any other value
    that is not one of the choices gives the [invalid_choice] error. *)
Theorem X8_status_patch_refusals partial pk instance data st e st' :
  OrderStatusUpdateSerializer.handle_update partial pk instance data st = (Raise e, st') →
  st' = st
  ∧ e = match dict_get data "status" with
        | None =>
            if partial then OrderStatusUpdateSerializer.EmptyUpdate
            else ValidationError (ByField [("status"%string, Code code.required)])
        | Some VNone => ValidationError (ByField [("status"%string, Code code.null)])
        | Some _ => ValidationError (ByField [("status"%string, Code code.invalid_choice)])
        end.
Proof.
  unfold OrderStatusUpdateSerializer.handle_update, bind, lift.
  destruct (OrderStatusUpdateSerializer.run_validation partial data) as [attrs|e'] eqn:Hv.
  - by unfold OrderStatusUpdateSerializer.update, bind, write, ret.
  - intros [= <- <-]. split; [done|]. by apply status_run_validation_Raise.
Qed.

Lemma X8_witness :
  OrderStatusUpdateSerializer.handle_update true 20 Example.order Example.price_only
    Example.st
  = (Raise OrderStatusUpdateSerializer.EmptyUpdate, Example.st)
  ∧ Example.st = Example.st
  ∧ OrderStatusUpdateSerializer.EmptyUpdate = OrderStatusUpdateSerializer.EmptyUpdate.
Proof.
  assert (H : OrderStatusUpdateSerializer.handle_update true 20 Example.order
                Example.price_only Example.st
              = (Raise OrderStatusUpdateSerializer.EmptyUpdate, Example.st)).
  { vm_compute. reflexivity. }
  split; [exact H|].
  exact (X8_status_patch_refusals true 20 Example.order Example.price_only Example.st _ _ H).
Defined.

(** X9. Serializing an Order after an accepted status patch gives the
    representation it had before with the new status: the two users and the
    six commercial terms are the same. *)
Theorem X9_status_patch_representation partial pk instance data st o st' :
  OrderStatusUpdateSerializer.handle_update partial pk instance data st = (Ok o, st') →
  let r := OrderSerializer.to_representation instance in
  ∃ s, dict_get data "status" = Some (VStr s)
       ∧ OrderSerializer.to_representation o.2
         = OrderSerializer.mk_representation
             (OrderSerializer.customer_user r) (OrderSerializer.business_user r) s
             (OrderSerializer.title r) (OrderSerializer.revisions r)
             (OrderSerializer.delivery_time_in_days r) (OrderSerializer.price r)
             (OrderSerializer.features r) (OrderSerializer.offer_type r).
Proof.
  unfold OrderStatusUpdateSerializer.handle_update, bind, lift.
  destruct (OrderStatusUpdateSerializer.run_validation partial data) as [attrs|e] eqn:Hv;
    [|done].
  apply status_run_validation_Ok in Hv as (s & Hs & Hin & ->).
  unfold OrderStatusUpdateSerializer.update, bind, write, ret. simpl.
  intros [= <- <-]. by exists s.
Qed.

Lemma X9_witness :
  OrderStatusUpdateSerializer.handle_update true 20 Example.order Example.status_and_price
    Example.st
  = (Ok (20, Example.completed), with_orders (insert 20 Example.completed) Example.st)
  ∧ ∃ s, dict_get Example.status_and_price "status" = Some (VStr s)
       ∧ OrderSerializer.to_representation Example.completed
         = OrderSerializer.mk_representation 3 7 s "Standard" 2 5 100 ["Logo"] "standard".
Proof.
  assert (H : OrderStatusUpdateSerializer.handle_update true 20 Example.order
                Example.status_and_price Example.st
              = (Ok (20, Example.completed),
                 with_orders (insert 20 Example.completed) Example.st)).
  { vm_compute. reflexivity. }
  split; [exact H|].
  exact (X9_status_patch_representation true 20 Example.order Example.status_and_price
           Example.st _ _ H).
Defined.

(** ** Reviews: what [validate] decides and what the writes hold *)

(** X10. [ReviewSerializer.validate] returns the validated data unchanged
    exactly when its target has a business profile and, if the context
    carries a user, the store holds no Review of that target by that user.
    It raises nothing but its two errors: TargetNotBusiness whenever the
    target has no business profile (also when a Review by the user exists),
    and DuplicateReview only for a business target the user has reviewed. *)
Theorem X10_review_validate_decides user a st :
  (ReviewSerializer.validate user a st = Ok a
   ↔ business_target a
     ∧ ∀ u target, user = Some u → ReviewSerializer.business_user a = Some target →
                   ¬ reviewed u target.1 st)
  ∧ (∀ e, ReviewSerializer.validate user a st = Raise e →
          (e = ReviewSerializer.TargetNotBusiness ∧ ¬ business_target a)
          ∨ (e = ReviewSerializer.DuplicateReview ∧ business_target a
             ∧ ∃ u target, user = Some u ∧ ReviewSerializer.business_user a = Some target
                           ∧ reviewed u target.1 st)).
Proof.
  unfold ReviewSerializer.validate, business_target, reviewed.
  destruct (ReviewSerializer.business_user a) as [[bpk bu]|] eqn:Hb.
  2:{ split; [split; [done|by intros [(? & ? & ? & _) _]]|].
      intros e [= <-]. left. split; [done|]. by intros (? & ? & ? & _). }
  destruct (User.profile bu) as [profile|] eqn:Hp.
  2:{ split; [split; [done|]|].
      - intros [(t & p & [= <-] & Hp' & _) _]. simpl in Hp'. congruence.
      - intros e [= <-]. left. split; [done|].
        intros (t & p & [= <-] & Hp' & _). simpl in Hp'. congruence. }
  case_bool_decide as Hty.
  { split; [split; [done|]|].
    - intros [(t & p & [= <-] & Hp' & Hty') _]. simpl in Hp'. congruence.
    - intros e [= <-]. left. split; [done|].
      intros (t & p & [= <-] & Hp' & Hty'). simpl in Hp'. congruence. }
  assert (Hbt : ∃ (target : Z * User.t) (profile0 : Profile.t),
            Some (bpk, bu) = Some target ∧ User.profile target.2 = Some profile0
            ∧ Profile.type profile0 = "business"%string).
  { by exists (bpk, bu), profile. }
  destruct user as [u|].
  2:{ split; [split; [|done]|done]. intros _. split; [done|]. by intros. }
  destruct (ReviewSerializer.Review_exists u bpk st) eqn:Hex.
  - apply Review_exists_true in Hex. split; [split; [done|]|].
    + intros [_ Hno]. destruct (Hno u (bpk, bu) eq_refl eq_refl Hex).
    + intros e [= <-]. right. split; [done|]. split; [done|]. by exists u, (bpk, bu).
  - split; [split; [|done]|done]. intros _. split; [done|].
    intros u' t [= <-] [= <-] Hr. apply Review_exists_true in Hr. simpl in Hr. congruence.
Qed.

Section review_writes.
Context `{Python}.

(** X11. An accepted Review creation writes one row, under a key that was
    not in use, and nothing else.  The row's reviewer is the one given to
    [save], not a value of the request body; its target is a user of the
    store with a business profile (the key the body gave, when that is an
    integer) whom the user of the request has not reviewed before; its
    rating is that of the body when this is an integer, and its description
    is the text of the body trimmed by [str.strip] when this is a string. *)
Theorem X11_review_create_writes_one_row user reviewer data st r st' :
  ReviewSerializer.handle_create user reviewer data st = (Ok r, st') →
  Review_objects st !! r.1 = None
  ∧ st' = with_reviews (insert r.1 r.2) st
  ∧ Review.reviewer r.2 = reviewer
  ∧ (∃ target profile,
       User_objects st !! Review.business_user r.2 = Some target
       ∧ User.profile target = Some profile
       ∧ Profile.type profile = "business"%string)
  ∧ (∀ u, user = Some u → ¬ reviewed u (Review.business_user r.2) st)
  ∧ (∀ z, dict_get data "business_user" = Some (VInt z) → Review.business_user r.2 = z)
  ∧ (∀ z, dict_get data "rating" = Some (VInt z) → Review.rating r.2 = z)
  ∧ (∀ s, dict_get data "description" = Some (VStr s) →
          Review.description r.2 = str_strip s).
Proof.
  unfold ReviewSerializer.handle_create, bind, read.
  destruct (ReviewSerializer.run_validation user data st) as [a|e] eqn:Hv; [|done].
  apply review_run_validation_Ok in Hv as [Hto Hval].
  unfold ReviewSerializer.create. intros [= <- <-]. simpl.
  split; [apply next_pk_fresh|]. split; [done|]. split; [done|].
  revert Hto. unfold ReviewSerializer.to_internal_value.
  intros [Herr ->]%collect_Ok.
  apply app_eq_nil in Herr as [Hb [Hr Hd]%app_eq_nil].
  apply error_of_nil in Hr as [Hr|[z Hr]], Hd as [Hd|[s Hd]];
    try (by apply IntegerField_Skip in Hr as [? _]);
    try (by apply CharField_Skip in Hd as [? _]).
  revert Hval. unfold ReviewSerializer.validate. simpl.
  destruct (serializers.PrimaryKeyRelatedField _ _ _) as [[bpk bu]| |] eqn:Hpk;
    simpl; try done.
  apply PrimaryKeyRelatedField_Value in Hpk as [Hlook Hkey].
  destruct (User.profile bu) as [profile|] eqn:Hp; [|done].
  case_bool_decide as Hty; [done|].
  intros Hval. rewrite Hr, Hd. simpl.
  split; [by exists bu, profile|]. split.
  { intros u ->. destruct (ReviewSerializer.Review_exists u bpk st) eqn:Hex; [done|].
    intros Hrev. apply Review_exists_true in Hrev. congruence. }
  split; [by intros z0 ?%Hkey|]. split.
  - intros z0 Hz. rewrite Hz in Hr. by apply IntegerField_VInt in Hr.
  - intros s0 Hs. rewrite Hs in Hd. by apply CharField_VStr in Hd.
Qed.

(** X12. An accepted Review patch saves, under the instance's key, a row
    with the instance's reviewer and target: for each of rating and
    description, the row holds the instance's value when the request body
    lacks the key, and the body's value when it is an integer rating or a
    string description, the string trimmed by [str.strip].  The body is a
    dict without the keys [business_user] and [reviewer].  No other row and
    no other table changes. *)
Theorem X12_review_patch_changes_rating_and_description
    partial pk instance body st o st' :
  ReviewPatchSerializer.handle_update partial pk instance body st = (Ok o, st') →
  ∃ data,
    body = ReviewPatchSerializer.Dict data
    ∧ ("business_user"%string ∉ dict_keys data)
    ∧ ("reviewer"%string ∉ dict_keys data)
    ∧ o.1 = pk
    ∧ st' = with_reviews (insert pk o.2) st
    ∧ Review.reviewer o.2 = Review.reviewer instance
    ∧ Review.business_user o.2 = Review.business_user instance
    ∧ (dict_get data "rating" = None → Review.rating o.2 = Review.rating instance)
    ∧ (∀ z, dict_get data "rating" = Some (VInt z) → Review.rating o.2 = z)
    ∧ (dict_get data "description" = None →
       Review.description o.2 = Review.description instance)
    ∧ (∀ s, dict_get data "description" = Some (VStr s) →
            Review.description o.2 = str_strip s).
Proof.
  unfold ReviewPatchSerializer.handle_update, bind, read.
  destruct (ReviewPatchSerializer.run_validation partial body st) as [a|e] eqn:Hv; [|done].
  unfold ReviewPatchSerializer.update, bind, write, ret. intros [= <- <-]. simpl.
  apply patch_run_validation_Ok in Hv as (data & -> & Hto & Hnil).
  assert (Hkeys : ¬ ("business_user"%string ∈ dict_keys data
                     ∨ "reviewer"%string ∈ dict_keys data)).
  { intros Hf%forbidden_nonempty. done. }
  exists data. split; [done|]. split; [tauto|]. split; [tauto|].
  split; [done|]. split; [done|]. split; [done|].
  revert Hto.
  unfold ReviewPatchSerializer.to_internal_value, ReviewSerializer.to_internal_value.
  intros [Herr ->]%collect_Ok. simpl.
  apply app_eq_nil in Herr as [_ [Hr Hd]%app_eq_nil].
  split; [|split; [|split; [|split]]].
  - rewrite (dict_get_None data "business_user") by tauto. by destruct partial.
  - intros Hz. rewrite Hz. by destruct partial.
  - intros z Hz. rewrite Hz in Hr |- *.
    apply error_of_nil in Hr as [Hr|[z' Hr]].
    + by apply IntegerField_Skip in Hr as [_ ?].
    + rewrite Hr. simpl. by apply IntegerField_VInt in Hr.
  - intros Hs. rewrite Hs. by destruct partial.
  - intros s Hs. rewrite Hs in Hd |- *.
    apply error_of_nil in Hd as [Hd|[s' Hd]].
    + by apply CharField_Skip in Hd as [_ ?].
    + rewrite Hd. simpl. by apply CharField_VStr in Hd.
Qed.
End review_writes.

Section review_writes_examples.
Existing Instance cpython.python.

Lemma X11_witness :
  ReviewSerializer.handle_create (Some 9) 9 Example.second_review Example.st
  = (Ok (31, Review.mk 7 9 5 "Again"),
     with_reviews (insert 31 (Review.mk 7 9 5 "Again")) Example.st)
  ∧ Review_objects Example.st !! 31 = None.
Proof.
  assert (H : ReviewSerializer.handle_create (Some 9) 9 Example.second_review Example.st
              = (Ok (31, Review.mk 7 9 5 "Again"),
                 with_reviews (insert 31 (Review.mk 7 9 5 "Again")) Example.st)).
  { vm_compute. reflexivity. }
  split; [exact H|].
  exact (proj1 (X11_review_create_writes_one_row (Some 9) 9 Example.second_review
                  Example.st _ _ H)).
Defined.

Lemma X12_witness :
  ReviewPatchSerializer.handle_update true 30 Example.review
    (ReviewPatchSerializer.Dict [("rating"%string, VInt 2)]) Example.st
  = (Ok (30, Review.mk 7 3 2 "Good work"),
     with_reviews (insert 30 (Review.mk 7 3 2 "Good work")) Example.st)
  ∧ ∃ data : dict,
      ReviewPatchSerializer.Dict [("rating"%string, VInt 2)]
      = ReviewPatchSerializer.Dict data
      ∧ ("business_user"%string ∉ dict_keys data)
      ∧ ("reviewer"%string ∉ dict_keys data)
      ∧ 30 = 30
      ∧ with_reviews (insert 30 (Review.mk 7 3 2 "Good work")) Example.st
        = with_reviews (insert 30 (Review.mk 7 3 2 "Good work")) Example.st
      ∧ 3 = Review.reviewer Example.review
      ∧ 7 = Review.business_user Example.review
      ∧ (dict_get data "rating" = None → 2 = Review.rating Example.review)
      ∧ (∀ z, dict_get data "rating" = Some (VInt z) → 2 = z)
      ∧ (dict_get data "description" = None →
         "Good work"%string = Review.description Example.review)
      ∧ (∀ s, dict_get data "description" = Some (VStr s) →
              "Good work"%string = str_strip s).
Proof.
  assert (H : ReviewPatchSerializer.handle_update true 30 Example.review
                (ReviewPatchSerializer.Dict [("rating"%string, VInt 2)]) Example.st
              = (Ok (30, Review.mk 7 3 2 "Good work"),
                 with_reviews (insert 30 (Review.mk 7 3 2 "Good work")) Example.st)).
  { vm_compute. reflexivity. }
  split; [exact H|].
  exact (X12_review_patch_changes_rating_and_description true 30 Example.review
           (ReviewPatchSerializer.Dict [("rating"%string, VInt 2)]) Example.st _ _ H).
Defined.
End review_writes_examples.
